(** * Task intelligence heuristics of the task-manager backend

    A shallow embedding of [src/controllers/aiController.ts]: the four
    generators (priority scorer, time estimator, assignee ranker, task
    decomposer), the request handlers that persist each result in the
    [ai_suggestions] table, and the properties the specification states
    about them.

    Numbers.  A JavaScript [Number] is an IEEE-754 binary64 value.  Wherever
    the source computes with fractions (elapsed days, hour estimates,
    confidences, [Math.random]) the model uses Rocq's primitive binary64
    floats, so the arithmetic is the source's bit for bit.  Scores built
    only from small integer constants and integer counts are kept in [Z].

    Strings.  A string is a [string] of 8-bit characters; [toLowerCase]
    acts on the ASCII letters. *)

From Stdlib Require Import ZArith List String Ascii Bool Lia DecimalString.
From Stdlib Require Import Floats.PrimFloat Floats.FloatOps Floats.SpecFloat.
From Stdlib Require Floats.FloatAxioms.
From Stdlib Require Import Sorting.Sorted Sorting.Permutation.
Import ListNotations.

Local Open Scope string_scope.
Local Open Scope list_scope.
Local Open Scope Z_scope.

Set Warnings "-inexact-float".

(* ================================================================== *)
(** * JavaScript primitives used by the controller *)
(* ================================================================== *)

Module JS.

(** ** Strings *)

Definition is_upper (c : ascii) : bool :=
  let n := nat_of_ascii c in ((65 <=? n) && (n <=? 90))%nat.

Definition lower_char (c : ascii) : ascii :=
  if is_upper c then ascii_of_nat (nat_of_ascii c + 32) else c.

(** [s.toLowerCase()] *)
Fixpoint toLowerCase (s : string) : string :=
  match s with
  | EmptyString => EmptyString
  | String c s' => String (lower_char c) (toLowerCase s')
  end.

(** [s.includes(sub)]: [sub] occurs in [s] at some position. *)
Fixpoint includes (s sub : string) : bool :=
  match s with
  | EmptyString => prefix sub EmptyString
  | String _ s' => prefix sub s || includes s' sub
  end.

(** [s.split(' ')]: the maximal runs between single spaces; never empty. *)
Fixpoint split_space (s : string) : list string :=
  match s with
  | EmptyString => [EmptyString]
  | String c s' =>
      if Ascii.eqb c " "%char then EmptyString :: split_space s'
      else match split_space s' with
           | t :: ts => String c t :: ts
           | [] => [String c EmptyString]
           end
  end.

(** [xs.join(sep)] *)
Definition join (sep : string) (xs : list string) : string :=
  String.concat sep xs.

(** A value that is a string or [undefined] (an omitted request field).
    String concatenation turns [undefined] into the text "undefined". *)
Definition to_string (v : option string) : string :=
  match v with
  | Some s => s
  | None => "undefined"
  end.

(** Truthiness of a string-or-undefined: the empty string and
    [undefined] are falsy. *)
Definition truthy (v : option string) : bool :=
  match v with
  | Some s => negb (s =? "")%string
  | None => false
  end.

(** The specification's word for [includes]: an occurrence. *)
Definition Substring (sub s : string) : Prop :=
  exists pre post, s = (pre ++ sub ++ post)%string.

(** ** Numbers *)

(** The binary64 value nearest to an integer (ties to even): the value a
    [Number] holds for it.  Exact below 2^53 in magnitude. *)
Definition of_Z (z : Z) : float :=
  SF2Prim (binary_normalize prec emax z 0 false).

(** The integer part towards minus infinity of a finite float [m * 2^e]. *)
Definition floor_Z (s : bool) (m : positive) (e : Z) : Z :=
  let n := if s then Z.neg m else Z.pos m in
  if (0 <=? e)%Z then Z.shiftl n e else Z.shiftr n (- e).

(** [Math.floor]: zeros, infinities and NaN are returned as they are. *)
Definition Math_floor (x : float) : float :=
  match Prim2SF x with
  | S754_finite s m e => of_Z (floor_Z s m e)
  | _ => x
  end.

(** [Math.round]: the nearest integer, a tie going towards plus infinity;
    a negative argument that rounds to zero gives minus zero. *)
Definition Math_round (x : float) : float :=
  match Prim2SF x with
  | S754_finite s m e =>
      if (0 <=? e)%Z then x
      else
        let n := if s then Z.neg m else Z.pos m in
        let r := Z.shiftr (2 * n + Z.shiftl 1 (- e)) (- e + 1) in
        if (r =? 0)%Z && s then (-0)%float else of_Z r
  | _ => x
  end.

(** [xs.length] as a [Number]. *)
Definition length_number {A : Type} (xs : list A) : float :=
  of_Z (Z.of_nat (List.length xs)).

(** [Math.min] and [Math.max] on integer-valued scores. *)
Definition Math_min (a b : Z) : Z := Z.min a b.
Definition Math_max (a b : Z) : Z := Z.max a b.

(** The index an integral float denotes in [xs[i]]; anything else
    ([NaN], a negative or fractional value) reads [undefined]. *)
Definition index_of (x : float) : option nat :=
  match Prim2SF x with
  | S754_zero _ => Some 0%nat
  | S754_finite false m e =>
      if (0 <=? e)%Z then Some (Z.to_nat (Z.shiftl (Z.pos m) e))
      else if (Z.shiftl (Z.shiftr (Z.pos m) (- e)) (- e) =? Z.pos m)%Z
           then Some (Z.to_nat (Z.shiftr (Z.pos m) (- e)))
           else None
  | _ => None
  end.

(** ** Objects used as lookup tables *)

(** The property names every object literal inherits from
    [Object.prototype]: looking one of them up finds a function (or, for
    [__proto__], the prototype object), not [undefined]. *)
Definition object_prototype_keys : list string :=
  ["constructor"; "__proto__"; "hasOwnProperty"; "isPrototypeOf";
   "propertyIsEnumerable"; "toLocaleString"; "toString"; "valueOf";
   "__defineGetter__"; "__defineSetter__"; "__lookupGetter__"; "__lookupSetter__"].

Definition inherited_key (key : string) : bool :=
  existsb (String.eqb key) object_prototype_keys.

(** The own property [key] of an object literal. *)
Definition own_property {A : Type} (table : list (string * A)) (key : string) : option A :=
  option_map snd (find (fun kv => (fst kv =? key)%string) table).

(** [v || fallback] for a string-or-undefined [v]. *)
Definition or_else (v : option string) (fallback : string) : string :=
  if truthy v then to_string v else fallback.

(** [xs[i]] for an index computed in floating point. *)
Definition at_index {A : Type} (xs : list A) (i : float) : option A :=
  match index_of i with
  | Some n => nth_error xs n
  | None => None
  end.

(** The decimal text of an integer, as a template literal prints it. *)
Definition decimal (z : Z) : string :=
  DecimalString.NilZero.string_of_int (Z.to_int z).

End JS.

(* ================================================================== *)
(** * Priority scorer: [calculatePrioritySuggestion] *)
(* ================================================================== *)

Module Priority.
Import JS.

Definition urgentKeywords : list string :=
  ["urgent"; "critical"; "emergency"; "asap"; "immediately"; "bug"; "error"; "broken"].
Definition highKeywords : list string :=
  ["important"; "major"; "significant"; "deadline"; "client"; "production"].
Definition lowKeywords : list string :=
  ["nice to have"; "enhancement"; "minor"; "cosmetic"; "cleanup"].

(** A row of the [projects] table, as far as the scorer reads it. *)
Record Project := { project_status : string }.

Record Factors := {
  keywordAnalysis : string;
  dueDateProximity : string;
  projectContextFactor : string
}.

Record Suggestion := {
  priority : string;
  confidence : float;
  score : Z;
  reasoning : list string;
  factors : Factors
}.

(** [projectContext?.status === 'urgent'] *)
Definition project_is_urgent (projectContext : option Project) : bool :=
  match projectContext with
  | Some p => (project_status p =? "urgent")%string
  | None => false
  end.

Definition msPerDay : float := (1000 * 60 * 60 * 24)%float.

Section Scorer.

(** [new Date(s).getTime()]: the instant a date string denotes, in
    milliseconds; [None] stands for the [NaN] of an invalid date. *)
Variable Date_parse : string -> option Z.

(** [(due.getTime() - now.getTime()) / (1000 * 60 * 60 * 24)].  Both
    instants are integers a [Number] holds exactly, so their difference in
    floating point is the rounding of their integer difference. *)
Definition daysUntil (dueDate : string) (now : Z) : float :=
  match Date_parse dueDate with
  | Some due => (of_Z (due - now) / msPerDay)%float
  | None => nan
  end.

(** The text the keyword tests run on. *)
Definition analysis_text (title : string) (description : option string) : string :=
  toLowerCase (title ++ " " ++ to_string description).

Definition has_keyword (keywords : list string) (text : string) : bool :=
  existsb (fun keyword => includes text keyword) keywords.

(** [now] and [now'] are the two readings of the clock the function takes
    (one for the score, one for the reasons). *)
Definition calculatePrioritySuggestion
    (title : string) (description : option string) (dueDate : option string)
    (projectContext : option Project) (now now' : Z) : Suggestion :=
  let score := 50 in
  let text := analysis_text title description in
  let score :=
    if has_keyword urgentKeywords text then score + 30
    else if has_keyword highKeywords text then score + 20
    else if has_keyword lowKeywords text then score - 20
    else score in
  let score :=
    if truthy dueDate then
      let daysUntilDue := daysUntil (to_string dueDate) now in
      if (daysUntilDue <? 1)%float then score + 30
      else if (daysUntilDue <? 3)%float then score + 20
      else if (daysUntilDue <? 7)%float then score + 10
      else if (30 <? daysUntilDue)%float then score - 10
      else score
    else score in
  let score := if project_is_urgent projectContext then score + 15 else score in
  let '(priority, reasoning) :=
    if 80 <=? score then ("urgent", ["High urgency indicators detected"])
    else if 65 <=? score then ("high", ["Important task with high impact"])
    else if score <=? 30 then ("low", ["Low impact or enhancement task"])
    else ("medium", []) in
  let reasoning :=
    if truthy dueDate then
      let daysUntilDue := daysUntil (to_string dueDate) now' in
      if (daysUntilDue <? 7)%float then reasoning ++ ["Due date approaching"]
      else reasoning
    else reasoning in
  {| priority := priority;
     confidence := 0.7%float;
     score := score;
     reasoning := reasoning;
     factors :=
       {| keywordAnalysis :=
            if has_keyword urgentKeywords text then "urgent"
            else if has_keyword highKeywords text then "high" else "normal";
          dueDateProximity := if truthy dueDate then "considered" else "not_provided";
          projectContextFactor :=
            match projectContext with Some _ => "available" | None => "not_available" end |}
  |}.

(** ** The three contributions, as the specification names them *)

(** The keyword tier of a text: the first keyword set with a match. *)
Inductive KeywordTier := LowTier | NoTier | HighTier | UrgentTier.

(** The due-date band; [NoBand] is the "otherwise" of the specification:
    no due date, an invalid one, or one 7 to 30 days away. *)
Inductive DueBand := Beyond30Days | NoBand | Within7Days | Within3Days | Within1Day.

Definition keywordTier (text : string) : KeywordTier :=
  if has_keyword urgentKeywords text then UrgentTier
  else if has_keyword highKeywords text then HighTier
  else if has_keyword lowKeywords text then LowTier
  else NoTier.

Definition dueBand (dueDate : option string) (now : Z) : DueBand :=
  if truthy dueDate then
    let daysUntilDue := daysUntil (to_string dueDate) now in
    if (daysUntilDue <? 1)%float then Within1Day
    else if (daysUntilDue <? 3)%float then Within3Days
    else if (daysUntilDue <? 7)%float then Within7Days
    else if (30 <? daysUntilDue)%float then Beyond30Days
    else NoBand
  else NoBand.

Definition tierAdjustment (t : KeywordTier) : Z :=
  match t with
  | LowTier => -20
  | NoTier => 0
  | HighTier => 20
  | UrgentTier => 30
  end.

Definition bandAdjustment (b : DueBand) : Z :=
  match b with
  | Beyond30Days => -10
  | NoBand => 0
  | Within7Days => 10
  | Within3Days => 20
  | Within1Day => 30
  end.

Definition flagAdjustment (flag : bool) : Z := if flag then 15 else 0.

(** "Upward" and "nearer due": the position in the order the
    specification lists the tiers and the bands in. *)
Definition tierRank (t : KeywordTier) : nat :=
  match t with
  | LowTier => 0
  | NoTier => 1
  | HighTier => 2
  | UrgentTier => 3
  end.

Definition bandRank (b : DueBand) : nat :=
  match b with
  | Beyond30Days => 0
  | NoBand => 1
  | Within7Days => 2
  | Within3Days => 3
  | Within1Day => 4
  end.

(** The category a summed score maps to. *)
Definition categoryOf (score : Z) : string :=
  if 80 <=? score then "urgent"
  else if 65 <=? score then "high"
  else if score <=? 30 then "low"
  else "medium".

End Scorer.
(** A parser for the examples: every date string denotes the instant
    43 200 000 ms, twelve hours after instant 0. *)
Definition noon_parser (_ : string) : option Z := Some (12 * 60 * 60 * 1000).

End Priority.

(* ================================================================== *)
(** * Time estimator: [calculateTimeEstimation] *)
(* ================================================================== *)

Module TimeEstimate.
Import JS.

(** A completed task of the user's history: creation and completion
    instants in milliseconds. *)
Record HistoricalTask := { created_at : Z; completed_at : Z }.

Record Factors := {
  complexity : string;
  priorityFactor : string;
  taskTypeFactor : string;
  historicalDataPoints : nat
}.

Record Estimation := {
  hours : float;
  minutes : float;
  totalHours : float;
  confidence : float;
  factors : Factors
}.

Definition priorityMultipliers : list (string * float) :=
  [("low", 0.8); ("medium", 1.0); ("high", 1.3); ("urgent", 1.5)]%float.

Definition typeMultipliers : list (string * float) :=
  [("bug", 0.7); ("feature", 1.2); ("research", 1.5);
   ("documentation", 0.8); ("testing", 0.9); ("general", 1.0)]%float.

(** [table[key] || 1.0] as a factor of a product.  Every own entry is a
    non-zero number; an inherited property is a truthy non-number, which
    the multiplication turns into [NaN]; anything else is [undefined] and
    falls back to 1.0. *)
Definition multiplier (table : list (string * float)) (key : string) : float :=
  match own_property table key with
  | Some m => m
  | None => if inherited_key key then nan else 1.0%float
  end.

Definition msPerHour : float := (1000 * 60 * 60)%float.

(** [(title + ' ' + description).split(' ').length] *)
Definition wordCount (title : string) (description : option string) : nat :=
  List.length (split_space (title ++ " " ++ to_string description)).

(** The [reduce] over the history: elapsed hours, summed from 0. *)
Definition sumCompletionHours (historicalTasks : list HistoricalTask) : float :=
  fold_left
    (fun sum task =>
       (sum + of_Z (completed_at task - created_at task) / msPerHour)%float)
    historicalTasks 0%float.

Definition calculateTimeEstimation
    (title : string) (description : option string) (priority taskType : string)
    (historicalTasks : list HistoricalTask) : Estimation :=
  let baseHours := 4%float in
  let wordCount := wordCount title description in
  let baseHours := if (50 <? wordCount)%nat then (baseHours + 2)%float else baseHours in
  let baseHours := if (100 <? wordCount)%nat then (baseHours + 2)%float else baseHours in
  let baseHours := (baseHours * multiplier priorityMultipliers priority)%float in
  let baseHours := (baseHours * multiplier typeMultipliers taskType)%float in
  let baseHours :=
    if (0 <? List.length historicalTasks)%nat then
      let avgCompletionTime :=
        (sumCompletionHours historicalTasks / length_number historicalTasks)%float in
      ((baseHours + avgCompletionTime) / 2)%float
    else baseHours in
  let hours := Math_floor baseHours in
  let minutes := Math_round ((baseHours - hours) * 60)%float in
  {| hours := hours;
     minutes := minutes;
     totalHours := baseHours;
     confidence := if (10 <? List.length historicalTasks)%nat then 0.8%float else 0.6%float;
     factors :=
       {| complexity := if (50 <? wordCount)%nat then "high" else "medium";
          priorityFactor := priority;
          taskTypeFactor := taskType;
          historicalDataPoints := List.length historicalTasks |}
  |}.

(** A history of one task whose completion is recorded 100 hours before
    its creation. *)
Definition backdated_history : list HistoricalTask :=
  [ {| created_at := 100 * 60 * 60 * 1000; completed_at := 0 |} ].

End TimeEstimate.

(* ================================================================== *)
(** * Assignee ranker: [calculateAssigneeSuggestions] *)
(* ================================================================== *)

Module Assignee.
Import JS.

(** A project member with the two task counts the handler attaches. *)
Record Member := {
  id : string;
  username : string;
  first_name : string;
  last_name : string;
  email : string;
  role : string;
  activeTaskCount : Z;
  totalTaskCount : Z
}.

Record User := {
  user_id : string;
  user_username : string;
  user_first_name : string;
  user_last_name : string;
  user_email : string
}.

Record Suggestion := {
  user : User;
  score : Z;
  confidence : float;
  reasons : list string;
  workloadStatus : string
}.

(** The skills the [filter] keeps: those occurring, lower-cased, in the
    task text or in the member's lower-cased username. *)
Definition matchedSkills (text : string) (skillsRequired : list string) (member : Member)
  : list string :=
  filter
    (fun skill =>
       includes text (toLowerCase skill)
       || includes (toLowerCase (username member)) (toLowerCase skill))
    skillsRequired.

(** The value of the local [score] when the member's entry is built,
    before it is clamped. *)
Definition rawScore (title : string) (description : option string)
    (skillsRequired : list string) (member : Member) : Z :=
  let score := 50 in
  let workloadPenalty := activeTaskCount member * 5 in
  let score := score - workloadPenalty in
  let experienceBonus := Math_min (totalTaskCount member * 2) 20 in
  let score := score + experienceBonus in
  let score :=
    if (role member =? "owner")%string then score + 10
    else if (role member =? "admin")%string then score + 5
    else score in
  let text := toLowerCase (title ++ " " ++ to_string description) in
  if (0 <? List.length skillsRequired)%nat then
    score + Z.of_nat (List.length (matchedSkills text skillsRequired member)) * 10
  else score.

(** The body of the [map] callback. *)
Definition suggestionFor (title : string) (description : option string)
    (skillsRequired : list string) (member : Member) : Suggestion :=
  let score := rawScore title description skillsRequired member in
  {| user :=
       {| user_id := id member;
          user_username := username member;
          user_first_name := first_name member;
          user_last_name := last_name member;
          user_email := email member |};
     score := Math_max 0 (Math_min 100 score);
     confidence := 0.6%float;
     reasons :=
       [ "Current workload: " ++ decimal (activeTaskCount member) ++ " active tasks";
         "Experience: " ++ decimal (totalTaskCount member) ++ " total tasks";
         "Role: " ++ role member ]%string
       ++ (if (0 <? List.length skillsRequired)%nat
           then [ ("Skills: " ++ join ", " skillsRequired)%string ] else []);
     workloadStatus :=
       if activeTaskCount member <? 3 then "light"
       else if activeTaskCount member <? 6 then "moderate" else "heavy"
  |}.

(** [sort((a, b) => b.score - a.score)]: a stable sort, highest score
    first; entries of equal score keep their order. *)
Fixpoint insertByScore (x : Suggestion) (sorted : list Suggestion) : list Suggestion :=
  match sorted with
  | [] => [x]
  | y :: rest =>
      if score x <? score y then y :: insertByScore x rest
      else x :: sorted
  end.

Definition sortByScore (xs : list Suggestion) : list Suggestion :=
  fold_right insertByScore [] xs.

Definition calculateAssigneeSuggestions
    (title : string) (description : option string) (skillsRequired : list string)
    (_workload : string) (members : list Member) : list Suggestion :=
  let suggestions :=
    sortByScore (map (suggestionFor title description skillsRequired) members) in
  firstn 5 suggestions.

Definition api_guru : Member :=
  {| id := "7"; username := "API_guru"; first_name := "Ada"; last_name := "Ng";
     email := "ada@example.com"; role := "member";
     activeTaskCount := 0; totalTaskCount := 0 |}.

End Assignee.

(* ================================================================== *)
(** * Task decomposer: [generateTaskBreakdown] *)
(* ================================================================== *)

Module Breakdown.
Import JS.

Record Subtask := {
  title : string;
  estimatedHours : float;
  priority : string
}.

Record Result := {
  subtasks : list Subtask;
  totalEstimatedHours : float;
  complexity : string;
  confidence : float;
  recommendations : list string
}.

Definition commonSubtasks : list string :=
  [ "Research and planning"; "Design and architecture"; "Implementation";
    "Testing"; "Documentation"; "Code review"; "Deployment preparation" ].

Definition complexityMap : list (string * nat) :=
  [("low", 3); ("medium", 5); ("high", 7); ("very_high", 9)]%nat.

(** [complexityMap[complexity] || 5].  [None] is the case of an inherited
    property: a truthy value that is not a number, so that every comparison
    with it is false and [slice(0, _)] takes nothing. *)
Definition subtaskCountFor (complexity : string) : option nat :=
  match own_property complexityMap complexity with
  | Some n => Some n
  | None => if inherited_key complexity then None else Some 5%nat
  end.

Definition apiSubtasks : list Subtask :=
  [ {| title := "Design API endpoints"; estimatedHours := 2; priority := "high" |};
    {| title := "Implement backend logic"; estimatedHours := 4; priority := "high" |};
    {| title := "Add error handling"; estimatedHours := 2; priority := "medium" |} ].

Definition uiSubtasks : list Subtask :=
  [ {| title := "Create UI mockups"; estimatedHours := 2; priority := "medium" |};
    {| title := "Implement user interface"; estimatedHours := 4; priority := "high" |};
    {| title := "Add responsive design"; estimatedHours := 2; priority := "medium" |} ].

Definition dataSubtasks : list Subtask :=
  [ {| title := "Design database schema"; estimatedHours := 2; priority := "high" |};
    {| title := "Create migrations"; estimatedHours := 1; priority := "high" |};
    {| title := "Optimize queries"; estimatedHours := 2; priority := "medium" |} ].

Definition priorities : list string := ["low"; "medium"; "high"].

(** The generic subtasks not yet named by a subtask of the running list. *)
Definition remainingFor (subtasks : list Subtask) : list string :=
  filter
    (fun task =>
       negb (existsb (fun st => includes (toLowerCase (title st)) (toLowerCase task))
                     subtasks))
    commonSubtasks.

(** [subtasks.reduce((sum, task) => sum + task.estimatedHours, 0)] *)
Definition sumHours (subtasks : list Subtask) : float :=
  fold_left (fun sum task => (sum + estimatedHours task)%float) subtasks 0%float.

Section Generator.

(** [random k] is the value of the [k]-th call of [Math.random()] made by
    the invocation (counted from 0). *)
Variable random : nat -> float.

(** The [while (subtasks.length < subtaskCount)] loop.  Every iteration
    that does not [break] pushes exactly one subtask, so the loop runs at
    most [subtaskCount - subtasks.length] times: [slots] is that number,
    and the condition holds exactly when it is not zero.  [calls] counts
    the random draws made so far. *)
Fixpoint fillRemaining (slots : nat) (subtasks : list Subtask) (calls : nat)
  : list Subtask :=
  match slots with
  | O => subtasks
  | S slots' =>
      let remaining := remainingFor subtasks in
      match remaining with
      | [] => subtasks
      | _ :: _ =>
          let randomTask :=
            at_index remaining
              (Math_floor (random calls * length_number remaining)%float) in
          let randomPriority :=
            at_index priorities (Math_floor (random (calls + 1)%nat * 3)%float) in
          let subtask :=
            {| title := or_else randomTask "General task";
               estimatedHours := (Math_floor (random (calls + 2)%nat * 4) + 1)%float;
               priority := or_else randomPriority "medium" |} in
          fillRemaining slots' (subtasks ++ [subtask]) (calls + 3)%nat
      end
  end.

Definition generateTaskBreakdown
    (title : string) (description : option string) (complexity : string) : Result :=
  let subtasks : list Subtask := [] in
  let subtaskCount := subtaskCountFor complexity in
  let text := toLowerCase (title ++ " " ++ to_string description) in
  let subtasks :=
    if includes text "api" || includes text "backend"
    then subtasks ++ apiSubtasks else subtasks in
  let subtasks :=
    if includes text "ui" || includes text "frontend"
    then subtasks ++ uiSubtasks else subtasks in
  let subtasks :=
    if includes text "database" || includes text "data"
    then subtasks ++ dataSubtasks else subtasks in
  let subtasks :=
    match subtaskCount with
    | Some n => fillRemaining (n - List.length subtasks) subtasks 0
    | None => subtasks
    end in
  let totalHours := sumHours subtasks in
  {| subtasks :=
       match subtaskCount with
       | Some n => firstn n subtasks
       | None => []
       end;
     totalEstimatedHours := totalHours;
     complexity := complexity;
     confidence := 0.7%float;
     recommendations :=
       [ "Start with high-priority subtasks";
         "Consider breaking down large subtasks further";
         "Review estimates after beginning work";
         "Update progress regularly" ]
  |}.

End Generator.
End Breakdown.

(* ================================================================== *)
(** * Request handlers and the [ai_suggestions] audit table *)
(* ================================================================== *)

Module Handlers.
Import JS.

(** ** Data *)

(** What a handler throws: an [AppError] with its HTTP status, or the
    rejection of a database call. *)
Inductive Error :=
| AppError (message : string) (statusCode : Z)
| DbError (message : string).

Record Body := {
  title : option string;
  description : option string;
  priority : option string;
  taskType : option string;
  dueDate : option string;
  projectId : option string;
  skillsRequired : option (list string);
  workload : option string;
  complexity : option string
}.

(** An authenticated request: [req.user.id] and [req.body]. *)
Record Request := { user : string; body : Body }.

(** The result a generator computed. *)
Inductive SuggestionResult :=
| TimeResult (estimation : TimeEstimate.Estimation)
| PriorityResult (suggestion : Priority.Suggestion)
| AssigneeResult (suggestions : list Assignee.Suggestion)
| BreakdownResult (breakdown : Breakdown.Result).

(** The object handed to [JSON.stringify] for the [content] column: the
    request's inputs and the computed result. *)
Inductive Content :=
| TimeContent (title description : option string) (priority taskType : string)
    (estimation : TimeEstimate.Estimation)
| PriorityContent (title description dueDate : option string)
    (suggestion : Priority.Suggestion)
| AssigneeContent (title description : option string) (skillsRequired : list string)
    (workload : string) (suggestions : list Assignee.Suggestion)
| BreakdownContent (title description : option string) (complexity : string)
    (breakdown : Breakdown.Result).

Definition content_result (c : Content) : SuggestionResult :=
  match c with
  | TimeContent _ _ _ _ e => TimeResult e
  | PriorityContent _ _ _ s => PriorityResult s
  | AssigneeContent _ _ _ _ l => AssigneeResult l
  | BreakdownContent _ _ _ b => BreakdownResult b
  end.

(** The values of an insert into [ai_suggestions]. *)
Record Row := {
  row_user_id : string;
  row_project_id : option string;
  row_suggestion_type : string;
  row_content : Content;
  row_created_at : Z
}.

(** A stored row, with the id the database gave it. *)
Record SuggestionRecord := { record_id : string; record_row : Row }.

(** The [data] of the JSON response. *)
Inductive Response :=
| TimeResponse (estimation : TimeEstimate.Estimation) (confidence : float)
    (factors : TimeEstimate.Factors) (suggestionId : string)
| PriorityResponse (suggestion : Priority.Suggestion) (suggestionId : string)
| AssigneeResponse (suggestions : list Assignee.Suggestion) (projectMemberCount : nat)
    (suggestionId : string)
| BreakdownResponse (breakdown : Breakdown.Result) (suggestionId : string).

Definition response_result (r : Response) : SuggestionResult :=
  match r with
  | TimeResponse e _ _ _ => TimeResult e
  | PriorityResponse s _ => PriorityResult s
  | AssigneeResponse l _ _ => AssigneeResult l
  | BreakdownResponse b _ => BreakdownResult b
  end.

Definition suggestionId (r : Response) : string :=
  match r with
  | TimeResponse _ _ _ i => i
  | PriorityResponse _ i => i
  | AssigneeResponse _ _ i => i
  | BreakdownResponse _ i => i
  end.

(** What the database did on one call. *)
Inductive DbEvent :=
| Queried
| QueryRejected (message : string)
| Inserted (record : SuggestionRecord)
| InsertRejected (row : Row) (message : string).

(** The state a handler runs in: the audit table, the record of the
    database calls made so far, and the response sent, if any. *)
Record World := {
  ai_suggestions : list SuggestionRecord;
  db_trace : list DbEvent;
  sent : option Response
}.

(** A project member as the roster query returns it. *)
Record MemberRow := {
  member_id : string;
  member_username : string;
  member_first_name : string;
  member_last_name : string;
  member_email : string;
  member_role : string
}.

(** The collaborators of a request: the database (whether its [n]-th call
    of the run is rejected, the id it gives a row, the answers of its
    queries), the clock, the date parser and the random source. *)
Record Env := {
  db_rejects : nat -> option string;
  new_id : nat -> string;
  is_member : string -> string -> bool;
  project_row : string -> option Priority.Project;
  completed_tasks : string -> list TimeEstimate.HistoricalTask;
  project_members : string -> list MemberRow;
  active_count : string -> Z;
  total_count : string -> Z;
  clock : nat -> Z;
  Date_parse : string -> option Z;
  random : nat -> float
}.

(** ** The handler monad: state and exceptions *)

Inductive Outcome (A : Type) :=
| Ok (a : A)
| Throw (e : Error).
Arguments Ok {A} a.
Arguments Throw {A} e.

Definition M (A : Type) : Type := World -> Outcome A * World.

Definition ret {A : Type} (a : A) : M A := fun w => (Ok a, w).

Definition throw {A : Type} (e : Error) : M A := fun w => (Throw e, w).

Definition bind {A B : Type} (m : M A) (k : A -> M B) : M B :=
  fun w =>
    match m w with
    | (Ok a, w') => k a w'
    | (Throw e, w') => (Throw e, w')
    end.

Notation "x <- m ;; k" := (bind m (fun x => k))
  (at level 61, m at next level, right associativity).
Notation "m ;;; k" := (bind m (fun _ => k))
  (at level 61, right associativity).

(** [try { body } catch (error) { logger.error(..); throw error; }]: the
    error is thrown again as it is. *)
Definition try_rethrow {A : Type} (body : M A) : M A :=
  fun w =>
    match body w with
    | (Ok a, w') => (Ok a, w')
    | (Throw e, w') => (Throw e, w')
    end.

Fixpoint mapM {A B : Type} (f : A -> M B) (xs : list A) : M (list B) :=
  match xs with
  | [] => ret []
  | x :: xs' => y <- f x ;; ys <- mapM f xs' ;; ret (y :: ys)
  end.

Definition record_event (ev : DbEvent) (w : World) : World :=
  {| ai_suggestions := ai_suggestions w;
     db_trace := db_trace w ++ [ev];
     sent := sent w |}.

Definition store (record : SuggestionRecord) (w : World) : World :=
  {| ai_suggestions := ai_suggestions w ++ [record];
     db_trace := db_trace w ++ [Inserted record];
     sent := sent w |}.

(** The four generator entry points. *)
Inductive Generator := TimeEstimator | PriorityScorer | AssigneeRanker | TaskDecomposer.

Definition suggestion_type (g : Generator) : string :=
  match g with
  | TimeEstimator => "time_estimation"
  | PriorityScorer => "priority"
  | AssigneeRanker => "assignee"
  | TaskDecomposer => "task_breakdown"
  end.

(** ** The persistence contract *)

Definition is_read (ev : DbEvent) : Prop :=
  match ev with
  | Queried | QueryRejected _ => True
  | Inserted _ | InsertRejected _ _ => False
  end.

(** From [w] to [w'] the database was only queried: the audit table and
    the response are as they were. *)
Definition only_reads (w w' : World) : Prop :=
  ai_suggestions w' = ai_suggestions w /\
  sent w' = sent w /\
  exists reads, db_trace w' = db_trace w ++ reads /\ Forall is_read reads.

Definition reads_only {A : Type} (m : M A) : Prop :=
  forall w, only_reads w (snd (m w)).

(** What a run of generator [g] on [req] from [w] may end in.  Either the
    handler returns, and then exactly one record was appended to the audit
    table by an insert that preceded the response, the response carries
    that record's id, and the record holds the result the response
    carries; or it throws, and then the table is as it was, no response
    was sent, and if the insert was attempted and rejected the error
    thrown is that rejection. *)
Definition persisted_or_failed (g : Generator) (req : Request) (w : World)
    (run : Outcome unit * World) : Prop :=
  match run with
  | (Ok _, w') =>
      exists record response reads,
        ai_suggestions w' = ai_suggestions w ++ [record] /\
        db_trace w' = db_trace w ++ reads ++ [Inserted record] /\
        Forall is_read reads /\
        sent w' = Some response /\
        suggestionId response = record_id record /\
        response_result response = content_result (row_content (record_row record)) /\
        row_user_id (record_row record) = user req /\
        row_suggestion_type (record_row record) = suggestion_type g
  | (Throw e, w') =>
      ai_suggestions w' = ai_suggestions w /\
      sent w' = sent w /\
      exists events,
        db_trace w' = db_trace w ++ events /\
        (forall record, ~ In (Inserted record) events) /\
        forall row message,
          In (InsertRejected row message) events -> e = DbError message
  end.

Definition Contract (g : Generator) (req : Request) (m : M unit) : Prop :=
  forall w, persisted_or_failed g req w (m w).

(** ** Effects *)

Section WithEnv.
Variable env : Env.

(** An awaited query: it answers, or it is rejected and the [await]
    throws.  It does not touch the audit table. *)
Definition db_query {A : Type} (answer : A) : M A :=
  fun w =>
    match db_rejects env (List.length (db_trace w)) with
    | Some message => (Throw (DbError message), record_event (QueryRejected message) w)
    | None => (Ok answer, record_event Queried w)
    end.

(** [db('ai_suggestions').insert(row).returning('*')], awaited, and its
    first returned row: one statement, which stores the whole row or,
    rejected, stores nothing. *)
Definition db_insert (row : Row) : M SuggestionRecord :=
  fun w =>
    let n := List.length (db_trace w) in
    match db_rejects env n with
    | Some message => (Throw (DbError message), record_event (InsertRejected row message) w)
    | None =>
        let record := {| record_id := new_id env n; record_row := row |} in
        (Ok record, store record w)
    end.

(** [res.json({ success: true, data })] *)
Definition res_json (data : Response) : M unit :=
  fun w =>
    (Ok tt,
     {| ai_suggestions := ai_suggestions w; db_trace := db_trace w; sent := Some data |}).

Definition default (v : option string) (d : string) : string :=
  match v with
  | Some s => s
  | None => d
  end.

(** [projectId || null] *)
Definition or_null (v : option string) : option string :=
  if truthy v then v else None.

(** ** The four handlers *)

Definition estimateTime (req : Request) : M unit :=
  try_rethrow (
    let userId := user req in
    let title := title (body req) in
    let description := description (body req) in
    let priority := default (priority (body req)) "medium" in
    let taskType := default (taskType (body req)) "general" in
    if negb (truthy title)
    then throw (AppError "Task title is required for time estimation" 400)
    else
      completedTasks <- db_query (completed_tasks env userId) ;;
      let estimation :=
        TimeEstimate.calculateTimeEstimation
          (to_string title) description priority taskType completedTasks in
      suggestionRecord <-
        db_insert
          {| row_user_id := userId;
             row_project_id := None;
             row_suggestion_type := "time_estimation";
             row_content := TimeContent title description priority taskType estimation;
             row_created_at := clock env 0 |} ;;
      res_json
        (TimeResponse estimation (TimeEstimate.confidence estimation)
           (TimeEstimate.factors estimation) (record_id suggestionRecord))).

Definition suggestPriority (req : Request) : M unit :=
  try_rethrow (
    let userId := user req in
    let title := title (body req) in
    let description := description (body req) in
    let dueDate := dueDate (body req) in
    let projectId := projectId (body req) in
    if negb (truthy title)
    then throw (AppError "Task title is required for priority suggestion" 400)
    else
      projectContext <-
        (if truthy projectId then
           membership <- db_query (is_member env (to_string projectId) userId) ;;
           if negb membership
           then throw (AppError "Access denied to this project" 403)
           else db_query (project_row env (to_string projectId))
         else ret None) ;;
      _userTasks <- db_query tt ;;
      let prioritySuggestion :=
        Priority.calculatePrioritySuggestion (Date_parse env)
          (to_string title) description dueDate projectContext
          (clock env 0) (clock env 1) in
      suggestionRecord <-
        db_insert
          {| row_user_id := userId;
             row_project_id := or_null projectId;
             row_suggestion_type := "priority";
             row_content := PriorityContent title description dueDate prioritySuggestion;
             row_created_at := clock env 2 |} ;;
      res_json (PriorityResponse prioritySuggestion (record_id suggestionRecord))).

(** The callback mapped over the roster: two count queries per member.
    [Promise.all] runs the callbacks concurrently; they only read, so the
    model runs them in roster order. *)
Definition memberWorkload (member : MemberRow) : M Assignee.Member :=
  activeTaskCount <- db_query (active_count env (member_id member)) ;;
  totalTaskCount <- db_query (total_count env (member_id member)) ;;
  ret {| Assignee.id := member_id member;
         Assignee.username := member_username member;
         Assignee.first_name := member_first_name member;
         Assignee.last_name := member_last_name member;
         Assignee.email := member_email member;
         Assignee.role := member_role member;
         Assignee.activeTaskCount := activeTaskCount;
         Assignee.totalTaskCount := totalTaskCount |}.

Definition suggestAssignee (req : Request) : M unit :=
  try_rethrow (
    let userId := user req in
    let title := title (body req) in
    let description := description (body req) in
    let projectId := projectId (body req) in
    let skillsRequired :=
      match skillsRequired (body req) with Some l => l | None => [] end in
    let workload := default (workload (body req)) "normal" in
    if negb (truthy title) || negb (truthy projectId)
    then throw (AppError "Task title and project ID are required" 400)
    else
      membership <- db_query (is_member env (to_string projectId) userId) ;;
      if negb membership
      then throw (AppError "Access denied to this project" 403)
      else
        projectMembers <- db_query (project_members env (to_string projectId)) ;;
        memberWorkloads <- mapM memberWorkload projectMembers ;;
        let assigneeSuggestions :=
          Assignee.calculateAssigneeSuggestions
            (to_string title) description skillsRequired workload memberWorkloads in
        suggestionRecord <-
          db_insert
            {| row_user_id := userId;
               row_project_id := projectId;
               row_suggestion_type := "assignee";
               row_content :=
                 AssigneeContent title description skillsRequired workload
                   assigneeSuggestions;
               row_created_at := clock env 0 |} ;;
        res_json
          (AssigneeResponse assigneeSuggestions (List.length projectMembers)
             (record_id suggestionRecord))).

Definition breakdownTask (req : Request) : M unit :=
  try_rethrow (
    let userId := user req in
    let title := title (body req) in
    let description := description (body req) in
    let complexity := default (complexity (body req)) "medium" in
    let projectId := projectId (body req) in
    if negb (truthy title)
    then throw (AppError "Task title is required for breakdown" 400)
    else
      (if truthy projectId then
         membership <- db_query (is_member env (to_string projectId) userId) ;;
         if negb membership
         then throw (AppError "Access denied to this project" 403)
         else ret tt
       else ret tt) ;;;
      _similarTasks <- db_query tt ;;
      let breakdown :=
        Breakdown.generateTaskBreakdown (random env)
          (to_string title) description complexity in
      suggestionRecord <-
        db_insert
          {| row_user_id := userId;
             row_project_id := or_null projectId;
             row_suggestion_type := "task_breakdown";
             row_content := BreakdownContent title description complexity breakdown;
             row_created_at := clock env 0 |} ;;
      res_json (BreakdownResponse breakdown (record_id suggestionRecord))).

Definition invoke (g : Generator) : Request -> M unit :=
  match g with
  | TimeEstimator => estimateTime
  | PriorityScorer => suggestPriority
  | AssigneeRanker => suggestAssignee
  | TaskDecomposer => breakdownTask
  end.

End WithEnv.

(** ** Example collaborators *)

(** An empty audit table, no database call yet, nothing sent. *)
Definition fresh : World := {| ai_suggestions := []; db_trace := []; sent := None |}.

(** A database that answers every call, or rejects only its [k]-th. *)
Definition example_env (db_rejects : nat -> option string) : Env :=
  {| db_rejects := db_rejects;
     new_id := fun n => ("suggestion-" ++ decimal (Z.of_nat n))%string;
     is_member := fun _ _ => true;
     project_row := fun _ => None;
     completed_tasks := fun _ => [];
     project_members := fun _ => [];
     active_count := fun _ => 0;
     total_count := fun _ => 0;
     clock := fun _ => 0;
     Date_parse := fun _ => None;
     random := fun _ => 0%float |}.

Definition always_answers (_ : nat) : option string := None.

Definition rejects_call (k : nat) (n : nat) : option string :=
  if (n =? k)%nat then Some "connection lost" else None.

Definition example_request : Request :=
  {| user := "u1";
     body := {| title := Some "Fix login bug"; description := None;
                priority := None; taskType := None; dueDate := None;
                projectId := None; skillsRequired := None; workload := None;
                complexity := None |} |}.

End Handlers.

(* ================================================================== *)
(** * Vocabulary for further properties of the generators *)
(* ================================================================== *)

Module TimeEstimateTerms.
Import JS TimeEstimate.

(** A label the multiplier table does not know: neither one of its own
    keys nor a property every object inherits. *)
Definition unknown_label (table : list (string * float)) (key : string) : Prop :=
  ~ In key (map fst table) /\ inherited_key key = false.

(** Two estimates that agree in every number they report. *)
Definition same_numbers (e1 e2 : Estimation) : Prop :=
  totalHours e1 = totalHours e2 /\ hours e1 = hours e2 /\
  minutes e1 = minutes e2 /\ confidence e1 = confidence e2.

(** A history of one task that took 5.99 hours. *)
Definition six_hour_history : list HistoricalTask :=
  [ {| created_at := 0; completed_at := 21564000 |} ].

End TimeEstimateTerms.

Module AssigneeTerms.
Import JS Assignee.

(** The same member with another count of active, respectively total,
    tasks. *)
Definition with_active (member : Member) (count : Z) : Member :=
  {| id := id member; username := username member;
     first_name := first_name member; last_name := last_name member;
     email := email member; role := role member;
     activeTaskCount := count; totalTaskCount := totalTaskCount member |}.

Definition with_total (member : Member) (count : Z) : Member :=
  {| id := id member; username := username member;
     first_name := first_name member; last_name := last_name member;
     email := email member; role := role member;
     activeTaskCount := activeTaskCount member; totalTaskCount := count |}.

(** [a] ranks at least as high as [b]. *)
Definition outranks (a b : Suggestion) : Prop := score b <= score a.

End AssigneeTerms.

Module BreakdownTerms.
Import JS Breakdown.

(** The subtasks the three keyword tests of the decomposer inject. *)
Definition contextualSubtasks (title : string) (description : option string)
  : list Subtask :=
  let text := toLowerCase (title ++ " " ++ to_string description) in
  (if includes text "api" || includes text "backend" then apiSubtasks else [])
  ++ (if includes text "ui" || includes text "frontend" then uiSubtasks else [])
  ++ (if includes text "database" || includes text "data" then dataSubtasks else []).

Definition contextKeywords : list string :=
  ["api"; "backend"; "ui"; "frontend"; "database"; "data"].

(** A text none of the six trigger words occurs in. *)
Definition context_free (text : string) : Prop :=
  forall keyword, In keyword contextKeywords -> ~ Substring keyword text.

(** The titles the filling loop can give a subtask. *)
Definition generic_title (t : string) : Prop :=
  In t commonSubtasks \/ t = "General task".

End BreakdownTerms.

Module HandlerTerms.
Import JS Handlers.


(** A request for project "p1". *)
Definition project_request : Request :=
  {| user := "u1";
     body := {| title := Some "Fix login bug"; description := None;
                priority := None; taskType := None; dueDate := None;
                projectId := Some "p1"; skillsRequired := None; workload := None;
                complexity := None |} |}.

(** A request without title. *)
Definition untitled_request : Request :=
  {| user := "u1";
     body := {| title := None; description := Some "no title given";
                priority := None; taskType := None; dueDate := None;
                projectId := Some "p1"; skillsRequired := None; workload := None;
                complexity := None |} |}.

(** An answering database in which nobody is a member of any project. *)
Definition strangers_env : Env :=
  {| db_rejects := always_answers;
     new_id := fun n => ("suggestion-" ++ decimal (Z.of_nat n))%string;
     is_member := fun _ _ => false;
     project_row := fun _ => None;
     completed_tasks := fun _ => [];
     project_members := fun _ => [];
     active_count := fun _ => 0;
     total_count := fun _ => 0;
     clock := fun _ => 0;
     Date_parse := fun _ => None;
     random := fun _ => 0%float |}.

End HandlerTerms.

Module RawRequests.
Import JS Handlers.
#[local] Set Warnings "-register-all".

(** A value of the parsed JSON body.  No validator stands before the
    handlers, so a property of [req.body] can hold any of these. *)
Inductive Json :=
| JNull
| JBool (b : bool)
| JNumber (x : float)
| JString (s : string)
| JArray (items : list Json)
| JObject (members : list (string * Json)).

(** The properties of [req.body] the handlers read; [None] is an absent
    property, read as [undefined]. *)
Record RawBody := {
  raw_title : option Json;
  raw_description : option Json;
  raw_priority : option Json;
  raw_taskType : option Json;
  raw_dueDate : option Json;
  raw_projectId : option Json;
  raw_skillsRequired : option Json;
  raw_workload : option Json;
  raw_complexity : option Json
}.

(** A property that is absent or a string, the type the controller's
    functions declare for it; [None] for a value of any other type. *)
Definition as_string (v : option Json) : option (option string) :=
  match v with
  | None => Some None
  | Some (JString s) => Some (Some s)
  | Some _ => None
  end.

Fixpoint all_strings (items : list Json) : option (list string) :=
  match items with
  | [] => Some []
  | JString s :: rest => option_map (cons s) (all_strings rest)
  | _ :: _ => None
  end.

(** A property that is absent or an array of strings ([string[]]). *)
Definition as_strings (v : option Json) : option (option (list string)) :=
  match v with
  | None => Some None
  | Some (JArray items) => option_map Some (all_strings items)
  | Some _ => None
  end.

Definition and_then {A B : Type} (v : option A) (k : A -> option B) : option B :=
  match v with
  | Some a => k a
  | None => None
  end.

(** The body as generator [g]'s handler reads it, when every property the
    handler destructures has its declared type.  Properties the handler
    does not read are left out.  [None]: some property it reads holds a
    value of another type (null, a number, an array with a non-string
    element, ...); JavaScript then coerces the value or throws a
    [TypeError], which the typed handlers of this development do not
    describe. *)
Definition read (g : Generator) (raw : RawBody) : option Body :=
  and_then (as_string (raw_title raw)) (fun title =>
  and_then (as_string (raw_description raw)) (fun description =>
  match g with
  | TimeEstimator =>
      and_then (as_string (raw_priority raw)) (fun priority =>
      and_then (as_string (raw_taskType raw)) (fun taskType =>
      Some {| title := title; description := description;
              priority := priority; taskType := taskType; dueDate := None;
              projectId := None; skillsRequired := None; workload := None;
              complexity := None |}))
  | PriorityScorer =>
      and_then (as_string (raw_dueDate raw)) (fun dueDate =>
      and_then (as_string (raw_projectId raw)) (fun projectId =>
      Some {| title := title; description := description;
              priority := None; taskType := None; dueDate := dueDate;
              projectId := projectId; skillsRequired := None; workload := None;
              complexity := None |}))
  | AssigneeRanker =>
      and_then (as_string (raw_projectId raw)) (fun projectId =>
      and_then (as_strings (raw_skillsRequired raw)) (fun skillsRequired =>
      and_then (as_string (raw_workload raw)) (fun workload =>
      Some {| title := title; description := description;
              priority := None; taskType := None; dueDate := None;
              projectId := projectId; skillsRequired := skillsRequired;
              workload := workload; complexity := None |})))
  | TaskDecomposer =>
      and_then (as_string (raw_complexity raw)) (fun complexity =>
      and_then (as_string (raw_projectId raw)) (fun projectId =>
      Some {| title := title; description := description;
              priority := None; taskType := None; dueDate := None;
              projectId := projectId; skillsRequired := None; workload := None;
              complexity := complexity |}))
  end)).


(** The same body with [skillsRequired: null]. *)
Definition raw_null_skills_body : RawBody :=
  {| raw_title := Some (JString "Fix login bug");
     raw_description := None;
     raw_priority := None;
     raw_taskType := None;
     raw_dueDate := None;
     raw_projectId := Some (JString "p1");
     raw_skillsRequired := Some JNull;
     raw_workload := None;
     raw_complexity := None |}.

End RawRequests.

(* ================================================================== *)
(** * Exploratory task suggestions: [generateTaskSuggestions] and
      [getTaskSuggestions] *)
(* ================================================================== *)

Module TaskSuggestions.
Import JS.

(** ** More JavaScript primitives *)

(** [Math.min] of two numbers: [NaN] if either is, and minus zero below
    plus zero. *)
Definition Math_min_number (a b : float) : float :=
  if is_nan a || is_nan b then nan
  else if (a <? b)%float then a
  else if (b <? a)%float then b
  else if get_sign a then a else b.

(** The magnitude of a finite float [m * 2^e], cut to an integer. *)
Definition truncated (m : positive) (e : Z) : Z :=
  if (0 <=? e)%Z then Z.shiftl (Z.pos m) e else Z.shiftr (Z.pos m) (- e).

(** The exclusive end index of [xs.slice(0, end)] for a list of [len]
    elements: [end] is cut to an integer ([NaN] counting as 0), a negative
    [end] counts from the end of the list, and the result is kept within
    [0 .. len]. *)
Definition slice_end (endArg : float) (len : nat) : nat :=
  match Prim2SF endArg with
  | S754_nan | S754_zero _ => 0%nat
  | S754_infinity negative => if negative then 0%nat else len
  | S754_finite negative m e =>
      if negative && (0 <? truncated m e)%Z
      then Z.to_nat (Z.max (Z.of_nat len - truncated m e) 0)
      else Z.to_nat (Z.min (truncated m e) (Z.of_nat len))
  end.

(** [xs.slice(0, end)] *)
Definition slice_to {A : Type} (xs : list A) (endArg : float) : list A :=
  firstn (slice_end endArg (List.length xs)) xs.

(** ** The generator *)

Record CommonTask := {
  common_title : string;
  common_description : string;
  common_priority : string
}.

Record Suggestion := {
  title : string;
  description : string;
  priority : string;
  estimatedHours : float;
  confidence : float
}.

Definition commonTasks : list CommonTask :=
  [ {| common_title := "Setup project documentation";
       common_description := "Create comprehensive project documentation including README, API docs, and user guides";
       common_priority := "high" |};
    {| common_title := "Implement error handling";
       common_description := "Add comprehensive error handling throughout the application";
       common_priority := "medium" |};
    {| common_title := "Add unit tests";
       common_description := "Create unit tests for core functionality to ensure code quality";
       common_priority := "high" |};
    {| common_title := "Performance optimization";
       common_description := "Analyze and optimize application performance bottlenecks";
       common_priority := "medium" |};
    {| common_title := "Security audit";
       common_description := "Conduct security review and implement necessary security measures";
       common_priority := "high" |};
    {| common_title := "Database optimization";
       common_description := "Optimize database queries and add necessary indexes";
       common_priority := "medium" |};
    {| common_title := "User experience improvements";
       common_description := "Review and improve user interface and user experience";
       common_priority := "medium" |};
    {| common_title := "Code refactoring";
       common_description := "Refactor legacy code to improve maintainability and readability";
       common_priority := "low" |};
    {| common_title := "API documentation";
       common_description := "Create and maintain comprehensive API documentation";
       common_priority := "medium" |};
    {| common_title := "Backup and recovery setup";
       common_description := "Implement backup and disaster recovery procedures";
       common_priority := "high" |} ].

(** The suggestions the two tests on the context push. *)
Definition contextSuggestions (context : string) : list Suggestion :=
  (if includes (toLowerCase context) "bug" || includes (toLowerCase context) "fix"
   then [ {| title := "Debug and fix reported issues";
             description := "Investigate and resolve bugs related to: " ++ context;
             priority := "high";
             estimatedHours := 4;
             confidence := 0.8 |} ]
   else [])
  ++
  (if includes (toLowerCase context) "feature" || includes (toLowerCase context) "new"
   then [ {| title := "Implement new feature";
             description := "Develop new functionality: " ++ context;
             priority := "medium";
             estimatedHours := 8;
             confidence := 0.7 |} ]
   else []).

Section Generator.

(** [shuffled] is the array [commonTasks.sort(() => 0.5 - Math.random())]
    leaves: with a comparator that answers at random the order is the
    engine's choice.  [random k] is the value of the [k]-th call of
    [Math.random()] made after the sort (counted from 0). *)
Variable shuffled : list CommonTask.
Variable random : nat -> float.

(** [{ ...shuffled[i], estimatedHours: .., confidence: .. }] *)
Definition drawn (task : CommonTask) (calls : nat) : Suggestion :=
  {| title := common_title task;
     description := common_description task;
     priority := common_priority task;
     estimatedHours := (Math_floor (random calls * 8) + 1)%float;
     confidence := (0.6 + random (calls + 1)%nat * 0.3)%float |}.

(** The loop [for (i = 0; i < Math.min(remainingSlots, shuffled.length);
    i++)], its bound computed once per test from the same two values.
    [rest] is [shuffled] from index [i] on; when it is empty [i] is
    [shuffled.length], which is not below a minimum taken with
    [shuffled.length], so the loop has ended. *)
Fixpoint drawLoop (bound : float) (i : nat) (rest : list CommonTask) (calls : nat)
  : list Suggestion :=
  match rest with
  | [] => []
  | task :: rest' =>
      if (of_Z (Z.of_nat i) <? bound)%float
      then drawn task calls :: drawLoop bound (S i) rest' (calls + 2)%nat
      else []
  end.

Definition generateTaskSuggestions (context : string) (limit : float)
  : list Suggestion :=
  let suggestions := contextSuggestions context in
  let remainingSlots := (limit - length_number suggestions)%float in
  let suggestions :=
    suggestions
    ++ drawLoop (Math_min_number remainingSlots (length_number shuffled)) 0 shuffled 0 in
  slice_to suggestions limit.

End Generator.

(** ** The handler *)

Record Query := {
  projectId : option string;
  context : option string;
  limit : option string
}.

Record Request := { user : string; query : Query }.

(** The values of one insert into [ai_suggestions]. *)
Record Row := {
  row_user_id : string;
  row_project_id : option float;
  row_suggestion_type : string;
  row_content : Suggestion;
  row_context : option string;
  row_created_at : Z
}.

Record SuggestionRecord := { record_id : string; record_row : Row }.

(** [{ id: record.id, ...suggestion }] *)
Record Stored := { stored_id : string; stored_suggestion : Suggestion }.

Inductive Response :=
| NoProjects (message : string)
| Suggestions (suggestions : list Stored) (projectCount existingTaskCount : nat).

Inductive DbEvent :=
| Queried
| QueryRejected (message : string)
| Inserted (record : SuggestionRecord)
| InsertRejected (row : Row) (message : string).

(** The rows of type "task" of the audit table, the database calls made
    so far, and the response sent, if any. *)
Record World := {
  task_suggestions : list SuggestionRecord;
  db_trace : list DbEvent;
  sent : option Response
}.

(** The collaborators: the database, the conversion [Number(s)] of a
    query parameter, the order the engine's sort leaves, the random
    source and the clock.  Task and project rows are only counted. *)
Record Env := {
  db_rejects : nat -> option string;
  new_id : nat -> string;
  is_member : string -> string -> bool;
  user_projects : string -> list float;
  existing_tasks : list float -> nat;
  projects : list float -> nat;
  Number : string -> float;
  shuffled : list CommonTask;
  random : nat -> float;
  clock : nat -> Z
}.

Definition M (A : Type) : Type := World -> Handlers.Outcome A * World.

Definition ret {A : Type} (a : A) : M A := fun w => (Handlers.Ok a, w).

Definition throw {A : Type} (e : Handlers.Error) : M A :=
  fun w => (Handlers.Throw e, w).

Definition bind {A B : Type} (m : M A) (k : A -> M B) : M B :=
  fun w =>
    match m w with
    | (Handlers.Ok a, w') => k a w'
    | (Handlers.Throw e, w') => (Handlers.Throw e, w')
    end.

Notation "x <- m ;; k" := (bind m (fun x => k))
  (at level 61, m at next level, right associativity).

Definition try_rethrow {A : Type} (body : M A) : M A :=
  fun w =>
    match body w with
    | (Handlers.Ok a, w') => (Handlers.Ok a, w')
    | (Handlers.Throw e, w') => (Handlers.Throw e, w')
    end.

Definition record_event (ev : DbEvent) (w : World) : World :=
  {| task_suggestions := task_suggestions w;
     db_trace := db_trace w ++ [ev];
     sent := sent w |}.

Definition store (record : SuggestionRecord) (w : World) : World :=
  {| task_suggestions := task_suggestions w ++ [record];
     db_trace := db_trace w ++ [Inserted record];
     sent := sent w |}.

(** [Promise.all]: the values of all, or the first rejection. *)
Fixpoint all_or_first {A : Type} (outcomes : list (Handlers.Outcome A))
  : Handlers.Outcome (list A) :=
  match outcomes with
  | [] => Handlers.Ok []
  | Handlers.Throw e :: _ => Handlers.Throw e
  | Handlers.Ok a :: rest =>
      match all_or_first rest with
      | Handlers.Ok xs => Handlers.Ok (a :: xs)
      | Handlers.Throw e => Handlers.Throw e
      end
  end.

Section WithEnv.
Variable env : Env.

Definition db_query {A : Type} (answer : A) : M A :=
  fun w =>
    match db_rejects env (List.length (db_trace w)) with
    | Some message =>
        (Handlers.Throw (Handlers.DbError message), record_event (QueryRejected message) w)
    | None => (Handlers.Ok answer, record_event Queried w)
    end.

(** One insert, stored whole or rejected. *)
Definition db_insert (row : Row) (w : World) : Handlers.Outcome SuggestionRecord * World :=
  let n := List.length (db_trace w) in
  match db_rejects env n with
  | Some message =>
      (Handlers.Throw (Handlers.DbError message), record_event (InsertRejected row message) w)
  | None =>
      let record := {| record_id := new_id env n; record_row := row |} in
      (Handlers.Ok record, store record w)
  end.

(** The inserts of the mapped callbacks.  Every callback issues its
    insert before any of them is answered, so each insert is made whether
    or not another one is rejected; the database serves them in the order
    they were issued. *)
Fixpoint insert_each (rows : list Row) (w : World)
  : list (Handlers.Outcome SuggestionRecord) * World :=
  match rows with
  | [] => ([], w)
  | row :: rest =>
      let (outcome, w1) := db_insert row w in
      let (outcomes, w2) := insert_each rest w1 in
      (outcome :: outcomes, w2)
  end.

(** [await Promise.all(suggestions.map(async (suggestion) => ..))]; of
    several rejections the model reports the one issued first. *)
Definition insert_all (rows : list Row) : M (list SuggestionRecord) :=
  fun w => let (outcomes, w') := insert_each rows w in (all_or_first outcomes, w').

Definition res_json (data : Response) : M unit :=
  fun w =>
    (Handlers.Ok tt,
     {| task_suggestions := task_suggestions w;
        db_trace := db_trace w;
        sent := Some data |}).

(** [Number(limit)] after the default [limit = 5]. *)
Definition limit_number (q : Query) : float :=
  match limit q with
  | Some s => Number env s
  | None => 5%float
  end.

(** The row built for the [i]-th suggestion. *)
Definition row_for (req : Request) (i : nat) (suggestion : Suggestion) : Row :=
  let q := query req in
  {| row_user_id := user req;
     row_project_id :=
       if truthy (projectId q) then Some (Number env (to_string (projectId q))) else None;
     row_suggestion_type := "task";
     row_content := suggestion;
     row_context := if truthy (context q) then context q else None;
     row_created_at := clock env i |}.

Fixpoint rows_from (req : Request) (i : nat) (suggestions : list Suggestion) : list Row :=
  match suggestions with
  | [] => []
  | s :: rest => row_for req i s :: rows_from req (S i) rest
  end.

Definition stored_as (record : SuggestionRecord) : Stored :=
  {| stored_id := record_id record;
     stored_suggestion := row_content (record_row record) |}.

Definition getTaskSuggestions (req : Request) : M unit :=
  try_rethrow (
    let userId := user req in
    let projectId := projectId (query req) in
    let context :=
      match context (query req) with Some c => c | None => ""%string end in
    projectIds <-
      (if truthy projectId then
         membership <- db_query (is_member env (to_string projectId) userId) ;;
         if negb membership
         then throw (Handlers.AppError "Access denied to this project" 403)
         else ret [Number env (to_string projectId)]
       else db_query (user_projects env userId)) ;;
    if (List.length projectIds =? 0)%nat
    then res_json (NoProjects "No projects available for suggestions")
    else
      existingTasks <- db_query (existing_tasks env projectIds) ;;
      projects <- db_query (projects env projectIds) ;;
      let suggestions :=
        generateTaskSuggestions (shuffled env) (random env) context
          (limit_number (query req)) in
      records <- insert_all (rows_from req 0 suggestions) ;;
      res_json (Suggestions (map stored_as records) projects existingTasks)).

End WithEnv.

(** ** Vocabulary for the properties *)

(** [s] was drawn from [task]: it has its title, description and
    priority. *)
Definition drawn_from (task : CommonTask) (s : Suggestion) : Prop :=
  title s = common_title task /\
  description s = common_description task /\
  priority s = common_priority task.

(** The database rejects, of the calls numbered [first], [first + 1],
    ..., [first + count - 1], the one numbered [rejected] and no other. *)
Definition rejects_only (env : Env) (first count rejected : nat) (message : string)
  : Prop :=
  db_rejects env rejected = Some message /\
  forall n, (first <= n < first + count)%nat -> n <> rejected ->
            db_rejects env n = None.

(** ** Example collaborators *)

Definition fresh : World := {| task_suggestions := []; db_trace := []; sent := None |}.

(** A user with one project; the sort left the tasks in their written
    order; the database rejects what [db_rejects] says. *)
Definition example_env (db_rejects : nat -> option string) : Env :=
  {| db_rejects := db_rejects;
     new_id := fun n => ("suggestion-" ++ decimal (Z.of_nat n))%string;
     is_member := fun _ _ => true;
     user_projects := fun _ => [1%float];
     existing_tasks := fun _ => 0%nat;
     projects := fun _ => 1%nat;
     Number := fun _ => 3%float;
     shuffled := commonTasks;
     random := fun _ => 0.5%float;
     clock := fun _ => 0 |}.

(** A user without any project. *)
Definition newcomer_env : Env :=
  {| db_rejects := Handlers.always_answers;
     new_id := fun n => ("suggestion-" ++ decimal (Z.of_nat n))%string;
     is_member := fun _ _ => false;
     user_projects := fun _ => [];
     existing_tasks := fun _ => 0%nat;
     projects := fun _ => 0%nat;
     Number := fun _ => 3%float;
     shuffled := commonTasks;
     random := fun _ => 0.5%float;
     clock := fun _ => 0 |}.

Definition example_request : Request :=
  {| user := "u1";
     query := {| projectId := None; context := Some "login bug"; limit := Some "3" |} |}.

End TaskSuggestions.

Module RawQueries.
Import JS TaskSuggestions.
#[local] Set Warnings "-register-all".

(** A value of the parsed query string: a string, or, for a repeated or
    bracketed parameter, an array or an object. *)
Inductive QueryValue :=
| QString (s : string)
| QArray (items : list QueryValue)
| QObject (members : list (string * QueryValue)).

(** The parameters of [req.query] the handler reads; [None]: absent. *)
Record RawQuery := {
  raw_projectId : option QueryValue;
  raw_context : option QueryValue;
  raw_limit : option QueryValue
}.

Definition as_string (v : option QueryValue) : option (option string) :=
  match v with
  | None => Some None
  | Some (QString s) => Some (Some s)
  | Some _ => None
  end.

(** The query as the handler reads it when each parameter is absent or a
    single string.  [None]: a parameter is an array or an object; the
    handler then coerces it or throws a [TypeError] (on
    [context.toLowerCase()], for one), which the typed handler of this
    development does not describe. *)
Definition read (raw : RawQuery) : option Query :=
  match as_string (raw_projectId raw), as_string (raw_context raw),
        as_string (raw_limit raw) with
  | Some projectId, Some context, Some limit =>
      Some {| projectId := projectId; context := context; limit := limit |}
  | _, _, _ => None
  end.


(** [?context=a&context=b] *)
Definition raw_repeated_context : RawQuery :=
  {| raw_projectId := None;
     raw_context := Some (QArray [QString "a"; QString "b"]);
     raw_limit := None |}.

End RawQueries.

Module OmittedDescriptionTerms.
Import JS.

(** The base estimate for a word count: 4 hours, 6 above 50 words, 8
    above 100. *)
Definition baseHoursFor (words : nat) : float :=
  if (100 <? words)%nat then 8%float
  else if (50 <? words)%nat then 6%float
  else 4%float.

(** The subtasks the decomposer injects for an analysis text. *)
Definition injectedBy (text : string) : list Breakdown.Subtask :=
  (if includes text "api" || includes text "backend" then Breakdown.apiSubtasks else [])
  ++ (if includes text "ui" || includes text "frontend" then Breakdown.uiSubtasks else [])
  ++ (if includes text "database" || includes text "data"
      then Breakdown.dataSubtasks else []).

End OmittedDescriptionTerms.

(* ================================================================== *)
(** * Facts about the JavaScript primitives *)
(* ================================================================== *)

Module JSFacts.
Import JS.

Lemma prefix_append (sub post : string) : prefix sub (sub ++ post) = true.
Proof.
  induction sub as [|c sub IH]; simpl.
  - now destruct post.
  - destruct (ascii_dec c c) as [_|ne]; [exact IH | now elim ne].
Qed.

Lemma prefix_split (sub s : string) :
  prefix sub s = true -> exists post, s = (sub ++ post)%string.
Proof.
  revert s; induction sub as [|c sub IH]; intros s H.
  - now exists s.
  - destruct s as [|d s]; simpl in H; [discriminate|].
    destruct (ascii_dec c d) as [->|_]; [|discriminate].
    destruct (IH _ H) as [post ->]. now exists post.
Qed.

Lemma includes_here (s sub : string) : prefix sub s = true -> includes s sub = true.
Proof.
  destruct s; cbn [includes]; intros H; [exact H | now rewrite H].
Qed.

(** [includes] decides occurrence. *)
Lemma includes_Substring (s sub : string) :
  includes s sub = true <-> Substring sub s.
Proof.
  split.
  - induction s as [|c s IH]; cbn [includes]; intros H.
    + destruct sub; [now exists ""%string, ""%string | discriminate].
    + apply orb_true_iff in H as [H|H].
      * destruct (prefix_split _ _ H) as [post E]. now exists ""%string, post.
      * destruct (IH H) as (pre & post & ->). now exists (String c pre), post.
  - intros (pre & post & ->).
    induction pre as [|c pre IH]; cbn [includes append].
    + apply includes_here, prefix_append.
    + rewrite IH. apply orb_true_r.
Qed.

Lemma Substring_append_left (pre sub s : string) :
  Substring sub s -> Substring sub (pre ++ s).
Proof.
  intros (a & b & ->). exists (pre ++ a)%string, b.
  induction pre as [|c pre IH]; simpl; [reflexivity | now rewrite IH].
Qed.

Lemma includes_append_left (pre s sub : string) :
  includes s sub = true -> includes (pre ++ s) sub = true.
Proof.
  rewrite !includes_Substring. apply Substring_append_left.
Qed.

Lemma toLowerCase_append (a b : string) :
  toLowerCase (a ++ b) = (toLowerCase a ++ toLowerCase b)%string.
Proof.
  induction a as [|c a IH]; simpl; [reflexivity | now rewrite IH].
Qed.

Lemma split_space_not_nil (s : string) : split_space s <> [].
Proof.
  induction s as [|c s IH]; simpl; [discriminate|].
  destruct (Ascii.eqb c " "); [discriminate|].
  destruct (split_space s); discriminate.
Qed.

(** One more space, one more token: splitting [a + ' ' + b] gives the
    tokens of [a] followed by the tokens of [b]. *)
Lemma split_space_length_append (a b : string) :
  List.length (split_space (a ++ String " " b)) =
  (List.length (split_space a) + List.length (split_space b))%nat.
Proof.
  induction a as [|c a IH]; simpl.
  - reflexivity.
  - destruct (Ascii.eqb c " "); simpl; [now rewrite IH|].
    pose proof (split_space_not_nil (a ++ String " " b)) as N1.
    pose proof (split_space_not_nil a) as N2.
    destruct (split_space (a ++ String " " b)) as [|t ts]; [contradiction|].
    destruct (split_space a) as [|u us]; [contradiction|].
    simpl in *. exact IH.
Qed.

Lemma has_existsb_Substring (text : string) (keywords : list string) :
  existsb (fun keyword => includes text keyword) keywords = true <->
  exists keyword, In keyword keywords /\ Substring keyword text.
Proof.
  rewrite existsb_exists. split; intros (k & Hin & H); exists k; split; trivial;
    now apply includes_Substring.
Qed.

End JSFacts.

(* ================================================================== *)
(** * Properties of the priority scorer *)
(* ================================================================== *)

Module PriorityFacts.
Import JS Priority.

(** Case analysis on every test the scorer makes: the three keyword
    sets, the presence of a due date, the urgency flag and the band
    comparisons; each case then computes. *)
Ltac split_on_signals title description dueDate projectContext :=
  destruct (has_keyword urgentKeywords (analysis_text title description)),
    (has_keyword highKeywords (analysis_text title description)),
    (has_keyword lowKeywords (analysis_text title description)),
    (truthy dueDate), (project_is_urgent projectContext); cbn;
  repeat match goal with
    | |- context [PrimFloat.ltb ?a ?b] => destruct (PrimFloat.ltb a b)
    end; reflexivity.

Section Scorer.
Variable Date_parse : string -> option Z.

(** The score is the base 50 plus the three contributions, each decided
    on its own; nothing is clamped. *)
Lemma score_is_sum title description dueDate projectContext now now' :
  score (calculatePrioritySuggestion Date_parse title description dueDate
           projectContext now now') =
  50 + tierAdjustment (keywordTier (analysis_text title description))
     + bandAdjustment (dueBand Date_parse dueDate now)
     + flagAdjustment (project_is_urgent projectContext).
Proof.
  unfold calculatePrioritySuggestion, keywordTier, dueBand.
  split_on_signals title description dueDate projectContext.
Qed.

Lemma priority_is_category title description dueDate projectContext now now' :
  let s := calculatePrioritySuggestion Date_parse title description dueDate
             projectContext now now' in
  priority s = categoryOf (score s).
Proof.
  unfold calculatePrioritySuggestion, categoryOf.
  split_on_signals title description dueDate projectContext.
Qed.

Lemma tierAdjustment_monotone (t1 t2 : KeywordTier) :
  (tierRank t1 <= tierRank t2)%nat -> tierAdjustment t1 <= tierAdjustment t2.
Proof. destruct t1, t2; cbn; lia. Qed.

Lemma bandAdjustment_monotone (b1 b2 : DueBand) :
  (bandRank b1 <= bandRank b2)%nat -> bandAdjustment b1 <= bandAdjustment b2.
Proof. destruct b1, b2; cbn; lia. Qed.

Lemma flagAdjustment_monotone (f1 f2 : bool) :
  (f1 = true -> f2 = true) -> flagAdjustment f1 <= flagAdjustment f2.
Proof. destruct f1, f2; cbn; intros H; try lia; now specialize (H eq_refl). Qed.

(** Whatever the input, the score lies between 20 (low keyword, due in
    more than 30 days, no flag) and 125. *)
Lemma score_range title description dueDate projectContext now now' :
  20 <= score (calculatePrioritySuggestion Date_parse title description dueDate
                 projectContext now now') <= 125.
Proof.
  rewrite score_is_sum.
  destruct (keywordTier _), (dueBand _ _ _), (project_is_urgent _); cbn; lia.
Qed.

(** A text with an urgent keyword is in the urgent tier, whatever else it
    contains. *)
Lemma urgent_keyword_tier (text keyword : string) :
  In keyword urgentKeywords -> Substring keyword text ->
  keywordTier text = UrgentTier.
Proof.
  intros Hin Hsub. unfold keywordTier, has_keyword.
  replace (existsb _ urgentKeywords) with true; [reflexivity|].
  symmetry. apply JSFacts.has_existsb_Substring. now exists keyword.
Qed.

(** A due date twelve hours ahead is in the nearest band. *)
Lemma due_in_12h_band (dueDate : string) (now : Z) :
  truthy (Some dueDate) = true ->
  Date_parse dueDate = Some (now + 12 * 60 * 60 * 1000) ->
  dueBand Date_parse (Some dueDate) now = Within1Day.
Proof.
  intros Ht Hd. unfold dueBand, daysUntil. rewrite Ht. cbn [to_string].
  rewrite Hd, Z.add_simpl_l. reflexivity.
Qed.

(** C5.  A text with an urgent keyword, no due date and no urgency flag
    scores exactly 80 and is categorised urgent, whichever other keyword
    sets match as well. *)
Theorem urgent_keyword_alone_scores_80
    title description projectContext now now' keyword :
  In keyword urgentKeywords ->
  Substring keyword (analysis_text title description) ->
  project_is_urgent projectContext = false ->
  let s := calculatePrioritySuggestion Date_parse title description None
             projectContext now now' in
  score s = 80 /\ priority s = "urgent".
Proof.
  intros Hin Hsub Hflag s.
  assert (Hs : score s = 80).
  { unfold s. rewrite score_is_sum, (urgent_keyword_tier _ _ Hin Hsub), Hflag.
    reflexivity. }
  split; [exact Hs|].
  unfold s in *. rewrite priority_is_category, Hs. reflexivity.
Qed.

(** C6.  The score never decreases when the keyword tier moves upward,
    the due-date band moves to a nearer one, or the urgency flag is turned
    on; holding two of the three fixed is the case of equal ranks. *)
Theorem score_monotone_in_each_contribution
    title1 description1 dueDate1 projectContext1 now1 now1'
    title2 description2 dueDate2 projectContext2 now2 now2' :
  (tierRank (keywordTier (analysis_text title1 description1)) <=
   tierRank (keywordTier (analysis_text title2 description2)))%nat ->
  (bandRank (dueBand Date_parse dueDate1 now1) <=
   bandRank (dueBand Date_parse dueDate2 now2))%nat ->
  (project_is_urgent projectContext1 = true ->
   project_is_urgent projectContext2 = true) ->
  score (calculatePrioritySuggestion Date_parse title1 description1 dueDate1
           projectContext1 now1 now1') <=
  score (calculatePrioritySuggestion Date_parse title2 description2 dueDate2
           projectContext2 now2 now2').
Proof.
  intros Ht Hb Hf. rewrite !score_is_sum.
  pose proof (tierAdjustment_monotone _ _ Ht).
  pose proof (bandAdjustment_monotone _ _ Hb).
  pose proof (flagAdjustment_monotone _ _ Hf).
  lia.
Qed.

(** C4, as amended.  "Critical production issue" / "Server is down", due
    in twelve hours, no urgency flag: the score is exactly 110 and the
    category urgent.  The score is the unclamped sum, so it exceeds 100
    here; over all inputs it ranges within 20..125 and so never goes below
    0. *)
Theorem critical_issue_scores_110 dueDate projectContext now now' :
  truthy (Some dueDate) = true ->
  Date_parse dueDate = Some (now + 12 * 60 * 60 * 1000) ->
  project_is_urgent projectContext = false ->
  let s := calculatePrioritySuggestion Date_parse "Critical production issue"
             (Some "Server is down") (Some dueDate) projectContext now now' in
  score s = 110 /\ priority s = "urgent" /\ 100 < score s /\
  forall title description due context t t',
    20 <= score (calculatePrioritySuggestion Date_parse title description due
                   context t t') <= 125.
Proof.
  intros Ht Hd Hflag s.
  assert (Hs : score s = 110).
  { unfold s. rewrite score_is_sum, (due_in_12h_band _ _ Ht Hd), Hflag.
    reflexivity. }
  repeat split; try apply score_range; try lia.
  unfold s in *. rewrite priority_is_category, Hs. reflexivity.
Qed.

End Scorer.

Lemma urgent_keyword_alone_scores_80_witness :
  let s := calculatePrioritySuggestion noon_parser "Fix the login BUG" None None
             None 0 0 in
  score s = 80 /\ priority s = "urgent".
Proof.
  apply (urgent_keyword_alone_scores_80 noon_parser "Fix the login BUG" None None
           0 0 "bug").
  - simpl. tauto.
  - apply JSFacts.includes_Substring. vm_compute. reflexivity.
  - reflexivity.
Defined.

Lemma score_monotone_in_each_contribution_witness :
  score (calculatePrioritySuggestion noon_parser "Cleanup of old docs" None None
           None 0 0) <=
  score (calculatePrioritySuggestion noon_parser "Urgent client request" None
           (Some "2025-07-08") None 0 0).
Proof.
  apply score_monotone_in_each_contribution.
  - vm_compute. lia.
  - vm_compute. lia.
  - vm_compute. intros H. exact H.
Defined.

Lemma critical_issue_scores_110_witness :
  let s := calculatePrioritySuggestion noon_parser "Critical production issue"
             (Some "Server is down") (Some "2025-07-08T10:00:00Z") None 0 0 in
  score s = 110 /\ priority s = "urgent" /\ 100 < score s /\
  forall title description due context t t',
    20 <= score (calculatePrioritySuggestion noon_parser title description due
                   context t t') <= 125.
Proof.
  apply (critical_issue_scores_110 noon_parser "2025-07-08T10:00:00Z" None 0 0);
    reflexivity.
Defined.

(** C4 as first stated fails in its last part: no input drives the score
    below 0.  The lowest score, 20, is reached by a low-keyword task due in
    more than 30 days. *)
Lemma score_never_below_zero :
  ~ (exists Date_parse title description dueDate projectContext now now',
       score (calculatePrioritySuggestion Date_parse title description dueDate
                projectContext now now') < 0).
Proof.
  intros (dp & t & d & due & c & n & n' & H).
  pose proof (score_range dp t d due c n n'). lia.
Qed.

Example lowest_score :
  score (calculatePrioritySuggestion (fun _ => Some (40 * 24 * 60 * 60 * 1000))
           "Minor cleanup" (Some "cosmetic") (Some "2025-12-31") None 0 0) = 20.
Proof. reflexivity. Qed.

End PriorityFacts.

(* ================================================================== *)
(** * Properties of the time estimator *)
(* ================================================================== *)

Module TimeEstimateFacts.
Import JS TimeEstimate.

(** The arithmetic of the worked example, in binary64. *)
Example priority_then_type_factor :
  (4 * 1.3 = 5.2 /\ 5.2 * 1.2 = 6.24)%float.
Proof. split; reflexivity. Qed.

(** With an omitted description the text is the title followed by the
    token "undefined": one word more than the title has. *)
Lemma wordCount_undefined (title : string) :
  wordCount title None = S (List.length (split_space title)).
Proof.
  unfold wordCount. cbn [to_string append].
  rewrite JSFacts.split_space_length_append. cbn. lia.
Qed.

(** C7.  "Implement user authentication", at most 50 words in all,
    priority high, type feature, no history: 4 * 1.3 * 1.2 = 6.24 hours,
    split into 6 hours and 14 minutes, with confidence 0.6. *)
Theorem authentication_feature_estimate (description : option string) :
  (wordCount "Implement user authentication" description <= 50)%nat ->
  let e := calculateTimeEstimation "Implement user authentication" description
             "high" "feature" [] in
  totalHours e = (4 * 1.3 * 1.2)%float /\
  totalHours e = 6.24%float /\
  hours e = Math_floor (totalHours e) /\
  hours e = 6%float /\
  minutes e = Math_round ((totalHours e - hours e) * 60)%float /\
  minutes e = 14%float /\
  confidence e = 0.6%float.
Proof.
  intros Hwords e. unfold e, calculateTimeEstimation.
  set (n := wordCount _ description) in *.
  assert (H50 : (50 <? n)%nat = false) by (apply Nat.ltb_ge; lia).
  assert (H100 : (100 <? n)%nat = false) by (apply Nat.ltb_ge; lia).
  rewrite H50, H100. cbn [hours minutes totalHours confidence List.length Nat.ltb Nat.leb].
  repeat split; reflexivity.
Qed.

Lemma authentication_feature_estimate_witness :
  let e := calculateTimeEstimation "Implement user authentication" None
             "high" "feature" [] in
  totalHours e = (4 * 1.3 * 1.2)%float /\
  totalHours e = 6.24%float /\
  hours e = Math_floor (totalHours e) /\
  hours e = 6%float /\
  minutes e = Math_round ((totalHours e - hours e) * 60)%float /\
  minutes e = 14%float /\
  confidence e = 0.6%float.
Proof.
  apply (authentication_feature_estimate None). vm_compute. lia.
Defined.

(** C10.  The estimate has no lower bound: with a history whose
    completions precede the creations, the mean elapsed time is negative,
    and after blending so are [totalHours] and [hours]. *)
Theorem estimate_can_be_negative :
  exists historicalTasks : list HistoricalTask,
    historicalTasks <> [] /\
    Forall (fun task => completed_at task < created_at task) historicalTasks /\
    let mean :=
      (sumCompletionHours historicalTasks / length_number historicalTasks)%float in
    let e := calculateTimeEstimation "Fix login" (Some "Session expires early")
               "medium" "general" historicalTasks in
    mean = (-100)%float /\
    totalHours e = ((4 + mean) / 2)%float /\
    (totalHours e <? 0)%float = true /\
    hours e = Math_floor (totalHours e) /\
    (hours e <? 0)%float = true /\
    hours e = (-48)%float.
Proof.
  exists backdated_history. split; [discriminate|]. split.
  - repeat constructor.
  - repeat split; vm_compute; reflexivity.
Qed.

(** The confidence depends on the size of the history alone. *)
Lemma confidence_by_history title description priority taskType historicalTasks :
  confidence (calculateTimeEstimation title description priority taskType
                historicalTasks) =
  if (10 <? List.length historicalTasks)%nat then 0.8%float else 0.6%float.
Proof. reflexivity. Qed.

End TimeEstimateFacts.

(* ================================================================== *)
(** * Properties of the assignee ranker *)
(* ================================================================== *)

Module AssigneeFacts.
Import JS Assignee.

Lemma In_insertByScore (x y : Suggestion) (l : list Suggestion) :
  In y (insertByScore x l) -> y = x \/ In y l.
Proof.
  induction l as [|z l IH]; simpl.
  - intros [->|[]]. now left.
  - destruct (score x <? score z); simpl.
    + intros [->|H]; [right; now left|].
      destruct (IH H) as [->|H']; [now left | right; now right].
    + intros [->|H]; [now left | now right].
Qed.

Lemma In_sortByScore (y : Suggestion) (l : list Suggestion) :
  In y (sortByScore l) -> In y l.
Proof.
  induction l as [|x l IH]; simpl; [trivial|].
  intros H. destruct (In_insertByScore _ _ _ H) as [->|H']; [now left | right; auto].
Qed.

Lemma In_firstn {A : Type} (n : nat) (y : A) (l : list A) :
  In y (firstn n l) -> In y l.
Proof.
  revert l; induction n as [|n IH]; intros [|x l]; simpl; try tauto.
  intros [->|H]; [now left | right; auto].
Qed.

(** Every returned entry is the entry built for some roster member. *)
Lemma suggestion_of_member title description skillsRequired workload members s :
  In s (calculateAssigneeSuggestions title description skillsRequired workload members) ->
  exists member, In member members /\
                 s = suggestionFor title description skillsRequired member.
Proof.
  unfold calculateAssigneeSuggestions. intros H.
  apply In_firstn, In_sortByScore, in_map_iff in H as (m & <- & Hm).
  now exists m.
Qed.

(** The returned score is the clamped value of the local [score]. *)
Lemma score_is_clamped title description skillsRequired member :
  score (suggestionFor title description skillsRequired member) =
  Z.max 0 (Z.min 100 (rawScore title description skillsRequired member)).
Proof. reflexivity. Qed.

(** C8.  Every returned score lies in [0, 100], whatever the member's
    active and total task counts. *)
Theorem assignee_scores_within_0_100
    title description skillsRequired workload (members : list Member) :
  Forall (fun s => 0 <= score s <= 100)
    (calculateAssigneeSuggestions title description skillsRequired workload members).
Proof.
  apply Forall_forall. intros s H.
  apply suggestion_of_member in H as (m & _ & ->).
  rewrite score_is_clamped. lia.
Qed.

(** The score before the clamp: workload, experience and role, plus 10
    for every entry of [skillsRequired] the filter keeps. *)
Lemma rawScore_skills title description skillsRequired member :
  rawScore title description skillsRequired member =
  rawScore title description [] member +
  10 * Z.of_nat (List.length
                   (matchedSkills (toLowerCase (title ++ " " ++ to_string description))
                      skillsRequired member)).
Proof.
  unfold rawScore. destruct skillsRequired as [|skill skills].
  - cbn. lia.
  - cbn [List.length Nat.ltb Nat.leb].
    destruct (role member =? "owner")%string, (role member =? "admin")%string; lia.
Qed.

(** C2, as amended.  A required skill adds 10 to the score (before the
    clamp) when it occurs, lower-cased, in the task text or in the member's
    lower-cased username, and nothing otherwise.  Occurring in both places
    is one match: the bonus is 10, not 20. *)
Theorem skill_bonus_once_per_skill title description skill skills member :
  let text := toLowerCase (title ++ " " ++ to_string description) in
  let inText := Substring (toLowerCase skill) text in
  let inName := Substring (toLowerCase skill) (toLowerCase (username member)) in
  (inText \/ inName ->
   rawScore title description (skill :: skills) member =
   rawScore title description skills member + 10) /\
  (~ (inText \/ inName) ->
   rawScore title description (skill :: skills) member =
   rawScore title description skills member).
Proof.
  intros text inText inName.
  rewrite (rawScore_skills _ _ (skill :: skills)), (rawScore_skills _ _ skills).
  fold text. unfold matchedSkills. cbn [filter].
  destruct (includes text (toLowerCase skill)) eqn:Ht;
    destruct (includes (toLowerCase (username member)) (toLowerCase skill)) eqn:Hn;
    cbn [orb List.length]; split; intros H; try lia.
  - exfalso. apply H. left. now apply JSFacts.includes_Substring.
  - exfalso. apply H. left. now apply JSFacts.includes_Substring.
  - exfalso. apply H. right. now apply JSFacts.includes_Substring.
  - exfalso. destruct H as [H|H]; apply JSFacts.includes_Substring in H; congruence.
Qed.

Lemma skill_bonus_once_per_skill_witness :
  rawScore "Build API" (Some "for billing") ["api"] api_guru =
  rawScore "Build API" (Some "for billing") [] api_guru + 10.
Proof.
  apply (proj1 (skill_bonus_once_per_skill "Build API" (Some "for billing") "api" []
                  api_guru)).
  left. apply JSFacts.includes_Substring. vm_compute. reflexivity.
Defined.

(** C2 as first stated fails: the skill "api" occurs both in the task
    text and in the username, and the score gains 10, not 20. *)
Lemma skill_in_text_and_name_adds_10 :
  includes (toLowerCase ("Build API" ++ " " ++ to_string (Some "for billing"))) "api" = true /\
  includes (toLowerCase (username api_guru)) "api" = true /\
  rawScore "Build API" (Some "for billing") [] api_guru = 50 /\
  rawScore "Build API" (Some "for billing") ["api"] api_guru = 60 /\
  score (suggestionFor "Build API" (Some "for billing") ["api"] api_guru) = 60 /\
  score (suggestionFor "Build API" (Some "for billing") ["api"] api_guru) <> 50 + 20.
Proof. repeat split; try reflexivity. vm_compute. discriminate. Qed.

(** The clamp at work at both ends. *)
Example clamp_low :
  map score
    (calculateAssigneeSuggestions "Build API" None [] "normal"
       [ {| id := "1"; username := "busy"; first_name := ""; last_name := "";
            email := ""; role := "member";
            activeTaskCount := 1000000; totalTaskCount := 3 |} ]) = [0].
Proof. reflexivity. Qed.

Example clamp_high :
  map score
    (calculateAssigneeSuggestions "a b c d e f" None ["a"; "b"; "c"; "d"; "e"; "f"]
       "normal"
       [ {| id := "1"; username := "owner"; first_name := ""; last_name := "";
            email := ""; role := "owner";
            activeTaskCount := 0; totalTaskCount := 1000000 |} ]) = [100].
Proof. reflexivity. Qed.

End AssigneeFacts.

(* ================================================================== *)
(** * Properties of the task decomposer *)
(* ================================================================== *)

Module BreakdownFacts.
Import JS Breakdown.

Section Generator.
Variable random : nat -> float.

(** The loop adds at most [slots] subtasks. *)
Lemma fillRemaining_length (slots : nat) (subtasks : list Subtask) (calls : nat) :
  (List.length subtasks <= List.length (fillRemaining random slots subtasks calls)
   <= List.length subtasks + slots)%nat.
Proof.
  revert subtasks calls; induction slots as [|slots IH]; intros subtasks calls; simpl.
  - lia.
  - destruct (remainingFor subtasks); [lia|].
    match goal with |- context [fillRemaining random slots ?l ?c] =>
      specialize (IH l c); rewrite length_app in IH; simpl in IH end.
    lia.
Qed.

(** The total is the sum over the whole running list, taken before the
    list is cut to the target count. *)
Lemma total_is_sum_before_truncation title description complexity n :
  subtaskCountFor complexity = Some n ->
  let r := generateTaskBreakdown random title description complexity in
  exists generated,
    subtasks r = firstn n generated /\
    totalEstimatedHours r = sumHours generated.
Proof.
  intros Hn r. unfold r, generateTaskBreakdown. rewrite Hn.
  eexists. split; reflexivity.
Qed.

(** C3 fails on this input.  Complexity low asks for 3 subtasks, the text
    "api and ui undefined" injects 6: the 3 returned subtasks sum to 8
    hours, and [totalEstimatedHours] is 16, the sum over all 6. *)
Theorem total_hours_include_truncated_subtasks :
  let r := generateTaskBreakdown random "API and UI" None "low" in
  List.length (subtasks r) = 3%nat /\
  sumHours (subtasks r) = 8%float /\
  totalEstimatedHours r = 16%float /\
  totalEstimatedHours r <> sumHours (subtasks r).
Proof.
  repeat split; try reflexivity. vm_compute. discriminate.
Qed.

End Generator.
End BreakdownFacts.

(* ================================================================== *)
(** * The persistence contract of the handlers *)
(* ================================================================== *)

Module HandlersFacts.
Import JS Handlers.

Lemma only_reads_refl (w : World) : only_reads w w.
Proof.
  repeat split. exists []. split; [now rewrite app_nil_r | constructor].
Qed.

Lemma only_reads_trans (w1 w2 w3 : World) :
  only_reads w1 w2 -> only_reads w2 w3 -> only_reads w1 w3.
Proof.
  intros (Ha & Hs & r1 & Ht & Hr) (Ha' & Hs' & r2 & Ht' & Hr').
  repeat split; try congruence.
  exists (r1 ++ r2). split.
  - now rewrite Ht', Ht, app_assoc.
  - apply Forall_app. now split.
Qed.

Lemma read_not_inserted (reads : list DbEvent) (record : SuggestionRecord) :
  Forall is_read reads -> ~ In (Inserted record) reads.
Proof.
  intros H Hin. rewrite Forall_forall in H. exact (H _ Hin).
Qed.

Lemma read_not_rejected (reads : list DbEvent) (row : Row) (message : string) :
  Forall is_read reads -> ~ In (InsertRejected row message) reads.
Proof.
  intros H Hin. rewrite Forall_forall in H. exact (H _ Hin).
Qed.

Section WithEnv.
Variable env : Env.

(** *** Computations that only read *)

Lemma reads_only_ret {A : Type} (a : A) : reads_only (ret a).
Proof. intros w. apply only_reads_refl. Qed.

Lemma reads_only_throw {A : Type} (e : Error) : reads_only (@throw A e).
Proof. intros w. apply only_reads_refl. Qed.

Lemma reads_only_query {A : Type} (answer : A) : reads_only (db_query env answer).
Proof.
  intros w. unfold db_query.
  destruct (db_rejects env _); cbn; repeat split;
    eexists; (split; [reflexivity | repeat constructor]).
Qed.

Lemma reads_only_bind {A B : Type} (m : M A) (k : A -> M B) :
  reads_only m -> (forall a, reads_only (k a)) -> reads_only (bind m k).
Proof.
  intros Hm Hk w. unfold bind. specialize (Hm w).
  destruct (m w) as [[a|e] w1]; cbn in *; [|exact Hm].
  exact (only_reads_trans _ _ _ Hm (Hk a w1)).
Qed.

Lemma reads_only_if {A : Type} (c : bool) (m1 m2 : M A) :
  reads_only m1 -> reads_only m2 -> reads_only (if c then m1 else m2).
Proof. now destruct c. Qed.

Lemma reads_only_mapM {A B : Type} (f : A -> M B) (xs : list A) :
  (forall x, reads_only (f x)) -> reads_only (mapM f xs).
Proof.
  intros Hf. induction xs as [|x xs IH]; cbn [mapM].
  - apply reads_only_ret.
  - apply reads_only_bind; [apply Hf|]. intros y.
    apply reads_only_bind; [exact IH|]. intros ys. apply reads_only_ret.
Qed.

Lemma reads_only_memberWorkload (member : MemberRow) :
  reads_only (memberWorkload env member).
Proof.
  unfold memberWorkload.
  apply reads_only_bind; [apply reads_only_query|]. intros a.
  apply reads_only_bind; [apply reads_only_query|]. intros t.
  apply reads_only_ret.
Qed.

(** *** The contract, step by step *)

Section Steps.
Variables (g : Generator) (req : Request).

(** Throwing before the insert is attempted. *)
Lemma contract_throw (e : Error) : Contract g req (throw e).
Proof.
  intros w. cbn. repeat split. exists []. rewrite app_nil_r.
  split; [reflexivity|]. split.
  - intros record [].
  - intros row message [].
Qed.

(** Reads in front of a computation that honours the contract. *)
Lemma contract_bind_reads {A : Type} (m : M A) (k : A -> M unit) :
  reads_only m -> (forall a, Contract g req (k a)) -> Contract g req (bind m k).
Proof.
  intros Hm Hk w. unfold bind.
  destruct (Hm w) as (Ha & Hs & r1 & Ht & Hr).
  destruct (m w) as [[a|e] w1]; cbn [snd] in *.
  - specialize (Hk a w1). destruct (k a w1) as [[u|e] w2]; cbn in *.
    + destruct Hk as (record & response & r2 & Ha2 & Ht2 & Hr2 & Hrest).
      exists record, response, (r1 ++ r2). repeat split; try tauto.
      * congruence.
      * now rewrite Ht2, Ht, !app_assoc.
      * apply Forall_app. now split.
    + destruct Hk as (Ha2 & Hs2 & evs & Ht2 & Hno & Hrej).
      repeat split; try congruence.
      exists (r1 ++ evs). split; [now rewrite Ht2, Ht, app_assoc|]. split.
      * intros record Hin. apply in_app_or in Hin as [Hin|Hin].
        -- exact (read_not_inserted _ _ Hr Hin).
        -- exact (Hno _ Hin).
      * intros row message Hin. apply in_app_or in Hin as [Hin|Hin].
        -- elim (read_not_rejected _ _ _ Hr Hin).
        -- exact (Hrej _ _ Hin).
  - cbn. repeat split; trivial. exists r1. split; [exact Ht|]. split.
    + intros record. now apply read_not_inserted.
    + intros row message Hin. elim (read_not_rejected _ _ _ Hr Hin).
Qed.

(** The insert followed by the response that carries the new id. *)
Lemma contract_insert_respond (row : Row) (respond : SuggestionRecord -> Response) :
  row_user_id row = user req ->
  row_suggestion_type row = suggestion_type g ->
  (forall record, suggestionId (respond record) = record_id record) ->
  (forall record, response_result (respond record) = content_result (row_content row)) ->
  Contract g req (bind (db_insert env row) (fun record => res_json (respond record))).
Proof.
  intros Hu Ht Hid Hres w. unfold bind, db_insert, res_json.
  destruct (db_rejects env _) as [message|]; cbn.
  - repeat split. eexists. split; [reflexivity|]. split.
    + intros record [H|[]]. discriminate.
    + intros r m [H|[]]. now injection H as _ ->.
  - eexists _, _, []. repeat split; cbn; auto.
Qed.

Lemma contract_try_rethrow (m : M unit) :
  Contract g req m -> Contract g req (try_rethrow m).
Proof.
  intros H w. unfold try_rethrow. specialize (H w).
  now destruct (m w) as [[u|e] w'].
Qed.

Lemma contract_if (c : bool) (m1 m2 : M unit) :
  Contract g req m1 -> Contract g req m2 -> Contract g req (if c then m1 else m2).
Proof. now destruct c. Qed.

End Steps.

Create HintDb reads.
#[local] Hint Resolve reads_only_ret reads_only_throw reads_only_query
  reads_only_bind reads_only_if reads_only_mapM reads_only_memberWorkload : reads.

(** One step of a handler: a guard that throws, reads followed by the
    rest, or the final insert-and-respond. *)
Ltac handler_step :=
  first
    [ apply contract_try_rethrow
    | apply contract_throw
    | apply contract_insert_respond; [reflexivity | reflexivity | reflexivity | reflexivity]
    | apply contract_if
    | apply contract_bind_reads; [auto 8 with reads | intro] ].

Lemma estimateTime_contract (req : Request) :
  Contract TimeEstimator req (estimateTime env req).
Proof. unfold estimateTime. repeat handler_step. Qed.

Lemma suggestPriority_contract (req : Request) :
  Contract PriorityScorer req (suggestPriority env req).
Proof. unfold suggestPriority. repeat handler_step. Qed.

Lemma suggestAssignee_contract (req : Request) :
  Contract AssigneeRanker req (suggestAssignee env req).
Proof. unfold suggestAssignee. repeat handler_step. Qed.

Lemma breakdownTask_contract (req : Request) :
  Contract TaskDecomposer req (breakdownTask env req).
Proof. unfold breakdownTask. repeat handler_step. Qed.

(** C1.  Whichever generator is invoked: a run that returns has appended
    exactly one record to the audit table, by an insert made before the
    response, and the response carries that record's id and the result
    the record holds; a run that throws leaves the table as it was and
    sends no response, and a rejected insert is the error thrown. *)
Theorem result_only_with_persisted_record
    (g : Generator) (req : Request) (w : World) :
  persisted_or_failed g req w (invoke env g req w).
Proof.
  destruct g; cbn [invoke].
  - apply estimateTime_contract.
  - apply suggestPriority_contract.
  - apply suggestAssignee_contract.
  - apply breakdownTask_contract.
Qed.

End WithEnv.

(** Two runs of the time estimator on an empty table.  When the database
    answers, the record is stored and its id is the one sent. *)
Example run_that_persists :
  let run := invoke (example_env always_answers) TimeEstimator example_request fresh in
  fst run = Ok tt /\
  map record_id (ai_suggestions (snd run)) = ["suggestion-1"] /\
  option_map suggestionId (sent (snd run)) = Some "suggestion-1".
Proof. repeat split. Qed.

(** When the insert (the second database call) is rejected, the rejection
    is what the caller gets; nothing is stored and nothing is sent. *)
Example run_with_rejected_insert :
  let run := invoke (example_env (rejects_call 1)) TimeEstimator example_request fresh in
  fst run = Throw (DbError "connection lost") /\
  ai_suggestions (snd run) = [] /\
  sent (snd run) = None /\
  exists row, db_trace (snd run) = [Queried; InsertRejected row "connection lost"].
Proof. repeat split. eexists. reflexivity. Qed.

End HandlersFacts.

(* ================================================================== *)
(** * An omitted description *)
(* ================================================================== *)

Module OmittedDescriptionFacts.
Import JS.

Lemma text_of_omitted_description (title : string) :
  toLowerCase (title ++ " " ++ to_string None) =
  (toLowerCase title ++ " undefined")%string.
Proof.
  cbn [to_string]. now rewrite JSFacts.toLowerCase_append.
Qed.

Lemma undefined_matches_skill title skill member :
  includes " undefined" (toLowerCase skill) = true ->
  Assignee.rawScore title None [skill] member =
  Assignee.rawScore title None [] member + 10.
Proof.
  intros H. rewrite (AssigneeFacts.rawScore_skills _ _ [skill]).
  rewrite text_of_omitted_description. unfold Assignee.matchedSkills. cbn [filter].
  rewrite (JSFacts.includes_append_left _ _ _ H). reflexivity.
Qed.

(** With an omitted description the estimator's numbers are those of a
    text one word longer than the title. *)
Lemma estimate_of_omitted_description title priority taskType historicalTasks :
  let words := S (List.length (split_space title)) in
  let e := TimeEstimate.calculateTimeEstimation title None priority taskType
             historicalTasks in
  TimeEstimate.complexity (TimeEstimate.factors e) =
    (if (50 <? words)%nat then "high" else "medium") /\
  (historicalTasks = [] ->
   TimeEstimate.totalHours e =
     (OmittedDescriptionTerms.baseHoursFor words
      * TimeEstimate.multiplier TimeEstimate.priorityMultipliers priority
      * TimeEstimate.multiplier TimeEstimate.typeMultipliers taskType)%float).
Proof.
  intros words e. unfold e, TimeEstimate.calculateTimeEstimation.
  cbn [TimeEstimate.factors TimeEstimate.complexity TimeEstimate.totalHours].
  rewrite TimeEstimateFacts.wordCount_undefined. fold words.
  split; [reflexivity|]. intros ->.
  unfold OmittedDescriptionTerms.baseHoursFor.
  destruct (50 <? words)%nat eqn:E50, (100 <? words)%nat eqn:E100; try reflexivity.
  apply Nat.ltb_ge in E50. apply Nat.ltb_lt in E100. lia.
Qed.

(** With an omitted description the decomposer injects what the text
    "<title> undefined" triggers. *)
Lemma breakdown_of_omitted_description random title complexity :
  let injected := OmittedDescriptionTerms.injectedBy (toLowerCase title ++ " undefined") in
  let r := Breakdown.generateTaskBreakdown random title None complexity in
  match Breakdown.subtaskCountFor complexity with
  | Some n =>
      let generated :=
        Breakdown.fillRemaining random (n - List.length injected) injected 0 in
      Breakdown.subtasks r = firstn n generated /\
      Breakdown.totalEstimatedHours r = Breakdown.sumHours generated
  | None =>
      Breakdown.subtasks r = [] /\
      Breakdown.totalEstimatedHours r = Breakdown.sumHours injected
  end.
Proof.
  intros injected r.
  unfold r, injected, Breakdown.generateTaskBreakdown, OmittedDescriptionTerms.injectedBy.
  rewrite text_of_omitted_description.
  cbn [Breakdown.subtasks Breakdown.totalEstimatedHours].
  destruct (Breakdown.subtaskCountFor complexity);
    destruct (includes _ "api" || includes _ "backend"),
      (includes _ "ui" || includes _ "frontend"),
      (includes _ "database" || includes _ "data"); split; reflexivity.
Qed.

(** With an omitted description and one required skill that occurs in
    " undefined", a member's returned score is the clamp of the score
    without skills plus 10. *)
Lemma ranking_of_omitted_description title skill workload member :
  includes " undefined" (toLowerCase skill) = true ->
  map Assignee.score
    (Assignee.calculateAssigneeSuggestions title None [skill] workload [member]) =
  [Z.max 0 (Z.min 100 (Assignee.rawScore title None [] member + 10))].
Proof.
  intros H. unfold Assignee.calculateAssigneeSuggestions.
  cbn [map Assignee.sortByScore fold_right Assignee.insertByScore firstn].
  rewrite AssigneeFacts.score_is_clamped. now rewrite (undefined_matches_skill _ _ _ H).
Qed.

(** C9.  An omitted description is read as the text "undefined": each
    generator computes what it computes for the literal description
    "undefined"; the time estimator counts one word more than the title
    has; the text the priority scorer matches keywords against ends in
    " undefined"; and the required skills "fine" and "defined" match every
    such task in the assignee ranker.  The results show it: the
    estimator's complexity bucket and total follow the title's token count
    plus one, the scorer's score is the sum for the keyword tier of
    "<title> undefined", the ranker's returned score carries the bonus of
    the matching skill, and the decomposer injects what "<title>
    undefined" triggers. *)
Theorem omitted_description_is_undefined (title : string) :
  (forall priority taskType historicalTasks,
     TimeEstimate.calculateTimeEstimation title None priority taskType historicalTasks =
     TimeEstimate.calculateTimeEstimation title (Some "undefined") priority taskType
       historicalTasks) /\
  (forall Date_parse dueDate projectContext now now',
     Priority.calculatePrioritySuggestion Date_parse title None dueDate projectContext
       now now' =
     Priority.calculatePrioritySuggestion Date_parse title (Some "undefined") dueDate
       projectContext now now') /\
  (forall skillsRequired workload members,
     Assignee.calculateAssigneeSuggestions title None skillsRequired workload members =
     Assignee.calculateAssigneeSuggestions title (Some "undefined") skillsRequired
       workload members) /\
  (forall random complexity,
     Breakdown.generateTaskBreakdown random title None complexity =
     Breakdown.generateTaskBreakdown random title (Some "undefined") complexity) /\
  TimeEstimate.wordCount title None = S (List.length (split_space title)) /\
  Priority.analysis_text title None = (toLowerCase title ++ " undefined")%string /\
  Substring "undefined" (Priority.analysis_text title None) /\
  (forall member,
     Assignee.rawScore title None ["fine"] member =
     Assignee.rawScore title None [] member + 10) /\
  (forall member,
     Assignee.rawScore title None ["defined"] member =
     Assignee.rawScore title None [] member + 10) /\
  (forall priority taskType historicalTasks,
     TimeEstimate.complexity
       (TimeEstimate.factors
          (TimeEstimate.calculateTimeEstimation title None priority taskType
             historicalTasks)) =
     if (50 <? S (List.length (split_space title)))%nat then "high" else "medium") /\
  (forall priority taskType,
     TimeEstimate.totalHours
       (TimeEstimate.calculateTimeEstimation title None priority taskType []) =
     (OmittedDescriptionTerms.baseHoursFor (S (List.length (split_space title)))
      * TimeEstimate.multiplier TimeEstimate.priorityMultipliers priority
      * TimeEstimate.multiplier TimeEstimate.typeMultipliers taskType)%float) /\
  (forall Date_parse dueDate projectContext now now',
     let s := Priority.calculatePrioritySuggestion Date_parse title None dueDate
                projectContext now now' in
     Priority.score s =
       50 + Priority.tierAdjustment
              (Priority.keywordTier (toLowerCase title ++ " undefined"))
          + Priority.bandAdjustment (Priority.dueBand Date_parse dueDate now)
          + Priority.flagAdjustment (Priority.project_is_urgent projectContext) /\
     Priority.priority s = Priority.categoryOf (Priority.score s)) /\
  (forall workload member,
     map Assignee.score
       (Assignee.calculateAssigneeSuggestions title None ["fine"] workload [member]) =
     [Z.max 0 (Z.min 100 (Assignee.rawScore title None [] member + 10))]) /\
  (forall workload member,
     map Assignee.score
       (Assignee.calculateAssigneeSuggestions title None ["defined"] workload [member]) =
     [Z.max 0 (Z.min 100 (Assignee.rawScore title None [] member + 10))]) /\
  (forall random complexity,
     let injected :=
       OmittedDescriptionTerms.injectedBy (toLowerCase title ++ " undefined") in
     let r := Breakdown.generateTaskBreakdown random title None complexity in
     match Breakdown.subtaskCountFor complexity with
     | Some n =>
         let generated :=
           Breakdown.fillRemaining random (n - List.length injected) injected 0 in
         Breakdown.subtasks r = firstn n generated /\
         Breakdown.totalEstimatedHours r = Breakdown.sumHours generated
     | None =>
         Breakdown.subtasks r = [] /\
         Breakdown.totalEstimatedHours r = Breakdown.sumHours injected
     end).
Proof.
  split; [reflexivity|]. split; [reflexivity|]. split; [reflexivity|].
  split; [reflexivity|].
  split; [apply TimeEstimateFacts.wordCount_undefined|].
  split; [apply text_of_omitted_description|].
  split.
  { unfold Priority.analysis_text. rewrite text_of_omitted_description.
    apply JSFacts.Substring_append_left, JSFacts.includes_Substring. reflexivity. }
  split; [intros member; now apply undefined_matches_skill|].
  split; [intros member; now apply undefined_matches_skill|].
  split.
  { intros priority taskType historicalTasks.
    apply (estimate_of_omitted_description title priority taskType historicalTasks). }
  split.
  { intros priority taskType.
    now apply (estimate_of_omitted_description title priority taskType []). }
  split.
  { intros Date_parse dueDate projectContext now now' s. split.
    - unfold s. rewrite PriorityFacts.score_is_sum.
      unfold Priority.analysis_text. now rewrite text_of_omitted_description.
    - apply PriorityFacts.priority_is_category. }
  split; [intros workload member; now apply ranking_of_omitted_description|].
  split; [intros workload member; now apply ranking_of_omitted_description|].
  intros random complexity. apply breakdown_of_omitted_description.
Qed.

(** A title of fifty words with no description counts as fifty-one, and
    so is estimated as a complex task. *)
Example fifty_words_and_undefined :
  let title := String.concat " " (repeat "word" 50) in
  List.length (split_space title) = 50%nat /\
  TimeEstimate.wordCount title None = 51%nat /\
  TimeEstimate.totalHours
    (TimeEstimate.calculateTimeEstimation title None "medium" "general" []) = 6%float.
Proof. repeat split. Qed.

End OmittedDescriptionFacts.

(* ================================================================== *)
(** * Further properties of the priority scorer *)
(* ================================================================== *)

Module PriorityCases.
Import JS Priority.

Section Scorer.
Variable Date_parse : string -> option Z.

(** The meaning of the tiers in terms of occurrences: a tier is the first
    keyword set, in the order urgent, high, low, with a keyword that
    occurs in the text. *)
Lemma keywordTier_occurrences (text : string) :
  let occurs keywords :=
    exists keyword, In keyword keywords /\ Substring keyword text in
  match keywordTier text with
  | UrgentTier => occurs urgentKeywords
  | HighTier => ~ occurs urgentKeywords /\ occurs highKeywords
  | LowTier => ~ occurs urgentKeywords /\ ~ occurs highKeywords /\ occurs lowKeywords
  | NoTier => ~ occurs urgentKeywords /\ ~ occurs highKeywords /\ ~ occurs lowKeywords
  end.
Proof.
  intros occurs. unfold keywordTier, has_keyword.
  destruct (existsb _ urgentKeywords) eqn:U;
    [now apply JSFacts.has_existsb_Substring|].
  destruct (existsb _ highKeywords) eqn:H;
    [split; [|now apply JSFacts.has_existsb_Substring]|].
  { intros C. apply JSFacts.has_existsb_Substring in C. congruence. }
  destruct (existsb _ lowKeywords) eqn:L; repeat split;
    try (intros C; apply JSFacts.has_existsb_Substring in C; congruence).
  now apply JSFacts.has_existsb_Substring.
Qed.

(** X1.  With no due date and no urgency flag the keyword tier alone
    decides: urgent 80/urgent, high 70/high, low 30/low, none 50/medium. *)
Theorem keyword_tier_alone_decides title description projectContext now now' :
  project_is_urgent projectContext = false ->
  let s := calculatePrioritySuggestion Date_parse title description None
             projectContext now now' in
  match keywordTier (analysis_text title description) with
  | UrgentTier => score s = 80 /\ priority s = "urgent"
  | HighTier => score s = 70 /\ priority s = "high"
  | LowTier => score s = 30 /\ priority s = "low"
  | NoTier => score s = 50 /\ priority s = "medium"
  end.
Proof.
  intros Hflag s.
  pose proof (PriorityFacts.priority_is_category Date_parse title description None
                projectContext now now') as Hc.
  pose proof (PriorityFacts.score_is_sum Date_parse title description None
                projectContext now now') as Hs.
  cbv zeta in Hc. fold s in Hc, Hs. rewrite Hflag in Hs. rewrite Hc, Hs.
  destruct (keywordTier _); split; reflexivity.
Qed.

(** X2.  The category is low exactly when the text is in the low tier,
    the due date gives no bonus (none, invalid, or at least 7 days away)
    and the project is not urgent. *)
Theorem low_category_characterised
    title description dueDate projectContext now now' :
  let s := calculatePrioritySuggestion Date_parse title description dueDate
             projectContext now now' in
  priority s = "low" <->
  keywordTier (analysis_text title description) = LowTier /\
  (bandRank (dueBand Date_parse dueDate now) <= 1)%nat /\
  project_is_urgent projectContext = false.
Proof.
  intros s.
  pose proof (PriorityFacts.priority_is_category Date_parse title description dueDate
                projectContext now now') as Hc.
  pose proof (PriorityFacts.score_is_sum Date_parse title description dueDate
                projectContext now now') as Hs.
  cbv zeta in Hc. fold s in Hc, Hs. rewrite Hc, Hs.
  destruct (keywordTier _), (dueBand _ _ _), (project_is_urgent _); cbn;
    split; try discriminate;
    try (intros (A & B & C); (discriminate || lia));
    intros _; repeat split; lia.
Qed.

(** X3.  A due date that does not parse adds nothing: score, category and
    reasons are those of a request without due date; only the
    [dueDateProximity] factor says it was considered. *)
Theorem unparseable_due_date_adds_nothing
    title description dueDate projectContext now now' :
  truthy (Some dueDate) = true ->
  Date_parse dueDate = None ->
  let s := calculatePrioritySuggestion Date_parse title description (Some dueDate)
             projectContext now now' in
  let s0 := calculatePrioritySuggestion Date_parse title description None
              projectContext now now' in
  score s = score s0 /\ priority s = priority s0 /\ reasoning s = reasoning s0 /\
  dueDateProximity (factors s) = "considered" /\
  dueDateProximity (factors s0) = "not_provided".
Proof.
  intros Ht Hd s s0. unfold s, s0, calculatePrioritySuggestion, daysUntil.
  rewrite Ht. cbn [to_string truthy]. rewrite Hd.
  destruct (has_keyword urgentKeywords (analysis_text title description)),
    (has_keyword highKeywords (analysis_text title description)),
    (has_keyword lowKeywords (analysis_text title description)),
    (project_is_urgent projectContext);
    repeat split.
Qed.

(** X4.  The reported keyword analysis knows no low tier: a text whose
    score the low keywords lowered by 20 is reported as "normal", like a
    text without any keyword. *)
Theorem keyword_analysis_reports_no_low_tier
    title description dueDate projectContext now now' :
  let s := calculatePrioritySuggestion Date_parse title description dueDate
             projectContext now now' in
  keywordAnalysis (factors s) =
  match keywordTier (analysis_text title description) with
  | UrgentTier => "urgent"
  | HighTier => "high"
  | LowTier | NoTier => "normal"
  end.
Proof.
  unfold calculatePrioritySuggestion, keywordTier.
  destruct (has_keyword urgentKeywords (analysis_text title description)),
    (has_keyword highKeywords (analysis_text title description)),
    (has_keyword lowKeywords (analysis_text title description)),
    (truthy dueDate), (project_is_urgent projectContext); cbn;
    repeat match goal with
      | |- context [PrimFloat.ltb ?a ?b] => destruct (PrimFloat.ltb a b)
      end; reflexivity.
Qed.

End Scorer.

Lemma keyword_tier_alone_decides_witness :
  let s := calculatePrioritySuggestion noon_parser "Minor cleanup" None None None 0 0 in
  score s = 30 /\ priority s = "low".
Proof.
  apply (keyword_tier_alone_decides noon_parser "Minor cleanup" None None 0 0).
  reflexivity.
Defined.

Lemma unparseable_due_date_adds_nothing_witness :
  let s := calculatePrioritySuggestion (fun _ => None) "Fix bug" None (Some "soon")
             None 0 0 in
  let s0 := calculatePrioritySuggestion (fun _ => None) "Fix bug" None None None 0 0 in
  score s = score s0 /\ priority s = priority s0 /\ reasoning s = reasoning s0 /\
  dueDateProximity (factors s) = "considered" /\
  dueDateProximity (factors s0) = "not_provided".
Proof.
  apply (unparseable_due_date_adds_nothing (fun _ => None) "Fix bug" None "soon"
           None 0 0); reflexivity.
Defined.

End PriorityCases.

(* ================================================================== *)
(** * Further properties of the time estimator *)
(* ================================================================== *)

Module TimeEstimateCases.
Import JS TimeEstimate TimeEstimateTerms.

(** [NaN] absorbs every operation it enters. *)
Lemma nan_mul (y : float) : (nan * y)%float = nan.
Proof.
  apply FloatAxioms.Prim2SF_inj. rewrite FloatAxioms.mul_spec.
  change (Prim2SF nan) with S754_nan. now destruct (Prim2SF y).
Qed.

Lemma nan_add (y : float) : (nan + y)%float = nan.
Proof.
  apply FloatAxioms.Prim2SF_inj. rewrite FloatAxioms.add_spec.
  change (Prim2SF nan) with S754_nan. now destruct (Prim2SF y).
Qed.

Lemma own_property_unknown {A : Type} (table : list (string * A)) (key : string) :
  ~ In key (map fst table) -> own_property table key = None.
Proof.
  unfold own_property. induction table as [|[k v] table IH]; cbn; intros H.
  - reflexivity.
  - destruct (String.eqb_spec k key) as [->|_]; [elim H; now left|].
    apply IH. intros C. apply H. now right.
Qed.

Lemma multiplier_unknown (table : list (string * float)) (key : string) :
  unknown_label table key -> multiplier table key = 1%float.
Proof.
  intros [Hown Hinh]. unfold multiplier.
  now rewrite (own_property_unknown _ _ Hown), Hinh.
Qed.

Lemma inherited_key_cases (key : string) :
  inherited_key key = true -> In key object_prototype_keys.
Proof.
  unfold inherited_key. rewrite existsb_exists.
  intros (k & Hin & E). apply String.eqb_eq in E. now subst.
Qed.

Lemma multiplier_inherited (key : string) :
  inherited_key key = true ->
  multiplier priorityMultipliers key = nan /\ multiplier typeMultipliers key = nan.
Proof.
  intros H. apply inherited_key_cases in H. cbn in H.
  repeat (destruct H as [<-|H]; [split; reflexivity|]). contradiction.
Qed.

(** X5.  A priority or task type the tables do not know counts with
    factor one: the estimate has the numbers of the same request with
    priority medium, respectively type general. *)
Theorem unknown_labels_count_as_factor_one
    title description priority taskType historicalTasks :
  (unknown_label priorityMultipliers priority ->
   same_numbers
     (calculateTimeEstimation title description priority taskType historicalTasks)
     (calculateTimeEstimation title description "medium" taskType historicalTasks)) /\
  (unknown_label typeMultipliers taskType ->
   same_numbers
     (calculateTimeEstimation title description priority taskType historicalTasks)
     (calculateTimeEstimation title description priority "general" historicalTasks)).
Proof.
  split; intros H; apply multiplier_unknown in H;
    unfold same_numbers, calculateTimeEstimation;
    cbn [totalHours hours minutes confidence]; rewrite H;
    repeat split.
Qed.

Lemma unknown_labels_count_as_factor_one_witness :
  same_numbers
    (calculateTimeEstimation "Fix login" None "blocker" "feature" [])
    (calculateTimeEstimation "Fix login" None "medium" "feature" []).
Proof.
  apply (proj1 (unknown_labels_count_as_factor_one "Fix login" None "blocker"
                  "feature" [])).
  split; [|reflexivity].
  cbn. intros [H|[H|[H|[H|[]]]]]; discriminate.
Defined.

(** X6.  A priority that names a property every object inherits
    ("constructor", "toString", ...) is looked up as a non-number: the
    whole estimate is [NaN], whatever the other inputs. *)
Theorem inherited_priority_gives_nan
    title description priority taskType historicalTasks :
  inherited_key priority = true ->
  let e := calculateTimeEstimation title description priority taskType
             historicalTasks in
  totalHours e = nan /\ hours e = nan /\ minutes e = nan.
Proof.
  intros H e. apply multiplier_inherited in H as [H _].
  assert (Ht : totalHours e = nan).
  { unfold e, calculateTimeEstimation. cbn [totalHours]. rewrite H.
    destruct (50 <? _)%nat, (100 <? _)%nat;
      match goal with
      | |- context [(?c * nan)%float] => change (c * nan)%float with nan
      end; rewrite nan_mul;
      (destruct (0 <? _)%nat; [rewrite nan_add|]; reflexivity). }
  assert (Hh : hours e = nan).
  { change (hours e) with (Math_floor (totalHours e)). now rewrite Ht. }
  repeat split; trivial.
  change (minutes e) with (Math_round ((totalHours e - hours e) * 60)%float).
  now rewrite Ht, Hh.
Qed.

Lemma inherited_priority_gives_nan_witness :
  let e := calculateTimeEstimation "Fix login" None "constructor" "bug" [] in
  totalHours e = nan /\ hours e = nan /\ minutes e = nan.
Proof.
  apply (inherited_priority_gives_nan "Fix login" None "constructor" "bug" []).
  reflexivity.
Defined.

(** X7.  The split into hours and minutes is not normalised: an estimate
    of 4.995 hours is reported as 4 hours and 60 minutes. *)
Theorem minutes_can_be_sixty :
  exists historicalTasks : list HistoricalTask,
    let e := calculateTimeEstimation "Fix login" (Some "Session expires early")
               "medium" "general" historicalTasks in
    (4.99 <? totalHours e)%float = true /\
    (totalHours e <? 5)%float = true /\
    hours e = 4%float /\
    minutes e = 60%float.
Proof.
  exists six_hour_history. repeat split.
Qed.

End TimeEstimateCases.

(* ================================================================== *)
(** * Further properties of the assignee ranker *)
(* ================================================================== *)

Module AssigneeCases.
Import JS Assignee AssigneeTerms.

Lemma insertByScore_permutation (x : Suggestion) (l : list Suggestion) :
  Permutation (x :: l) (insertByScore x l).
Proof.
  induction l as [|y l IH]; cbn; [reflexivity|].
  destruct (score x <? score y); [|reflexivity].
  rewrite perm_swap. now constructor.
Qed.

Lemma sortByScore_permutation (l : list Suggestion) :
  Permutation l (sortByScore l).
Proof.
  induction l as [|x l IH]; [reflexivity|].
  change (Permutation (x :: l) (insertByScore x (sortByScore l))).
  rewrite <- insertByScore_permutation. now constructor.
Qed.

Lemma insertByScore_sorted (x : Suggestion) (l : list Suggestion) :
  StronglySorted outranks l -> StronglySorted outranks (insertByScore x l).
Proof.
  induction 1 as [|y l Hs IH Hy]; cbn.
  - repeat constructor.
  - destruct (score x <? score y) eqn:E.
    + constructor; [exact IH|].
      apply (Permutation_Forall (insertByScore_permutation x l)).
      constructor; [|exact Hy]. apply Z.ltb_lt in E. unfold outranks. lia.
    + apply Z.ltb_ge in E. constructor; [now constructor|].
      constructor; [exact E|].
      apply (Forall_impl _ (P := outranks y)); [|exact Hy].
      unfold outranks. intros; lia.
Qed.

Lemma sortByScore_sorted (l : list Suggestion) :
  StronglySorted outranks (sortByScore l).
Proof.
  induction l as [|x l IH]; [constructor|].
  change (StronglySorted outranks (insertByScore x (sortByScore l))).
  now apply insertByScore_sorted.
Qed.

Lemma sortByScore_of_sorted (l : list Suggestion) :
  StronglySorted outranks l -> sortByScore l = l.
Proof.
  induction 1 as [|x l Hs IH Hx]; [reflexivity|].
  change (insertByScore x (sortByScore l) = x :: l).
  rewrite IH. destruct l as [|y l]; [reflexivity|]. cbn [insertByScore].
  apply Forall_inv in Hx. unfold outranks in Hx.
  destruct (Z.ltb_spec (score x) (score y)); [lia | reflexivity].
Qed.

(** X8.  The ranker returns min(5, roster size) entries. *)
Theorem returns_five_or_the_whole_roster
    title description skillsRequired workload (members : list Member) :
  List.length
    (calculateAssigneeSuggestions title description skillsRequired workload members) =
  Nat.min 5 (List.length members).
Proof.
  unfold calculateAssigneeSuggestions.
  rewrite length_firstn, <- (Permutation_length (sortByScore_permutation _)).
  now rewrite length_map.
Qed.

(** X9.  The entries returned are the top of the ranking: together with
    the entries left out they are a rearrangement of the roster's
    entries, in descending order of score; so no member left out has a
    higher score than a member returned. *)
Theorem returns_the_highest_scores
    title description skillsRequired workload (members : list Member) :
  let returned :=
    calculateAssigneeSuggestions title description skillsRequired workload members in
  exists left_out,
    Permutation (map (suggestionFor title description skillsRequired) members)
      (returned ++ left_out) /\
    StronglySorted outranks (returned ++ left_out) /\
    Forall (fun r => Forall (fun l => score l <= score r) left_out) returned.
Proof.
  intros returned. unfold returned, calculateAssigneeSuggestions.
  set (ranked := sortByScore _).
  exists (skipn 5 ranked).
  assert (Hs : StronglySorted outranks (firstn 5 ranked ++ skipn 5 ranked)).
  { rewrite firstn_skipn. apply sortByScore_sorted. }
  split; [rewrite firstn_skipn; apply sortByScore_permutation|].
  split; [exact Hs|].
  induction (firstn 5 ranked) as [|r rs IH]; [constructor|].
  cbn in Hs. inversion Hs as [|? ? Hs' Hr]; subst.
  constructor; [|now apply IH].
  apply Forall_app in Hr as [_ Hr]. exact Hr.
Qed.

(** X10.  The sort is stable: a roster whose entries are already in
    descending order of score, ties included, keeps its order; the result
    is its first five entries. *)
Theorem ranked_roster_keeps_its_order
    title description skillsRequired workload (members : list Member) :
  StronglySorted outranks
    (map (suggestionFor title description skillsRequired) members) ->
  calculateAssigneeSuggestions title description skillsRequired workload members =
  map (suggestionFor title description skillsRequired) (firstn 5 members).
Proof.
  intros H. unfold calculateAssigneeSuggestions.
  now rewrite (sortByScore_of_sorted _ H), firstn_map.
Qed.

Lemma ranked_roster_keeps_its_order_witness :
  calculateAssigneeSuggestions "Build API" None [] "normal"
    [api_guru; api_guru; with_active api_guru 2] =
  map (suggestionFor "Build API" None [])
    (firstn 5 [api_guru; api_guru; with_active api_guru 2]).
Proof.
  apply (ranked_roster_keeps_its_order "Build API" None [] "normal"
           [api_guru; api_guru; with_active api_guru 2]).
  cbn [map].
  repeat (apply SSorted_cons || apply SSorted_nil || apply Forall_cons
          || apply Forall_nil);
    unfold outranks; vm_compute; discriminate.
Defined.

Lemma rawScore_active title description skillsRequired member count :
  rawScore title description skillsRequired (with_active member count) =
  rawScore title description skillsRequired (with_active member 0) - count * 5.
Proof.
  unfold rawScore, matchedSkills. cbn [activeTaskCount totalTaskCount role username with_active].
  destruct (role member =? "owner")%string, (role member =? "admin")%string,
    (0 <? List.length skillsRequired)%nat; lia.
Qed.

(** X11.  One more active task never raises a member's score: the score
    is antitone in the count of active tasks. *)
Theorem more_active_tasks_never_raise_score
    title description skillsRequired member (fewer more : Z) :
  fewer <= more ->
  score (suggestionFor title description skillsRequired (with_active member more)) <=
  score (suggestionFor title description skillsRequired (with_active member fewer)).
Proof.
  intros H. rewrite !AssigneeFacts.score_is_clamped.
  rewrite (rawScore_active _ _ _ _ more), (rawScore_active _ _ _ _ fewer). lia.
Qed.

Lemma more_active_tasks_never_raise_score_witness :
  score (suggestionFor "Build API" None [] (with_active api_guru 4)) <=
  score (suggestionFor "Build API" None [] (with_active api_guru 1)).
Proof.
  apply (more_active_tasks_never_raise_score "Build API" None [] api_guru 1 4). lia.
Defined.

(** X12.  Experience counts up to ten tasks: from ten total tasks on the
    score no longer depends on the total. *)
Theorem experience_counts_up_to_ten_tasks
    title description skillsRequired member (total : Z) :
  10 <= total ->
  score (suggestionFor title description skillsRequired (with_total member total)) =
  score (suggestionFor title description skillsRequired (with_total member 10)).
Proof.
  intros H. rewrite !AssigneeFacts.score_is_clamped. f_equal. f_equal.
  unfold rawScore, matchedSkills, Math_min.
  cbn [activeTaskCount totalTaskCount role username with_total].
  replace (Z.min (total * 2) 20) with (Z.min (10 * 2) 20) by lia. reflexivity.
Qed.

Lemma experience_counts_up_to_ten_tasks_witness :
  score (suggestionFor "Build API" None [] (with_total api_guru 5000)) =
  score (suggestionFor "Build API" None [] (with_total api_guru 10)).
Proof.
  apply (experience_counts_up_to_ten_tasks "Build API" None [] api_guru 5000). lia.
Defined.

Lemma includes_empty (s : string) : includes s "" = true.
Proof. destruct s; reflexivity. Qed.

(** X13.  An empty string among the required skills matches every task
    and every member: it adds 10 to each score before the clamp. *)
Theorem empty_skill_matches_everyone title description skills member :
  rawScore title description ("" :: skills) member =
  rawScore title description skills member + 10.
Proof.
  rewrite (AssigneeFacts.rawScore_skills _ _ ("" :: skills)),
    (AssigneeFacts.rawScore_skills _ _ skills).
  unfold matchedSkills. cbn [filter toLowerCase]. rewrite includes_empty.
  cbn [orb List.length]. lia.
Qed.

End AssigneeCases.

(* ================================================================== *)
(** * Further properties of the task decomposer *)
(* ================================================================== *)

Module BreakdownCases.
Import JS Breakdown BreakdownTerms.

Lemma remainingFor_generic (subtasks : list Subtask) (t : string) :
  In t (remainingFor subtasks) -> In t commonSubtasks.
Proof. unfold remainingFor. intros H. now apply filter_In in H. Qed.

(** A generic title names at most one entry of the generic pool. *)
Lemma generic_title_excludes_one (t : string) :
  generic_title t ->
  (List.length
     (filter (fun task => includes (toLowerCase t) (toLowerCase task)) commonSubtasks)
   <= 1)%nat.
Proof.
  intros [H| ->]; [|vm_compute; lia].
  cbn in H. repeat (destruct H as [<-|H]; [vm_compute; lia|]). contradiction.
Qed.

Lemma filter_one_more {A : Type} (p q : A -> bool) (l : list A) :
  (List.length (filter (fun x => negb (q x)) l) <=
   List.length (filter (fun x => negb (q x || p x)) l) + List.length (filter p l))%nat.
Proof.
  induction l as [|x l IH]; cbn; [lia|].
  destruct (q x), (p x); cbn; lia.
Qed.

(** Pushing a subtask with a generic title removes at most one entry from
    the pool of remaining generic subtasks. *)
Lemma remainingFor_push (subtasks : list Subtask) (s : Subtask) :
  generic_title (title s) ->
  (List.length (remainingFor subtasks) <=
   S (List.length (remainingFor (subtasks ++ [s]))))%nat.
Proof.
  intros Hg. unfold remainingFor.
  pose proof (filter_one_more
                (fun task => includes (toLowerCase (title s)) (toLowerCase task))
                (fun task =>
                   existsb (fun st => includes (toLowerCase (title st)) (toLowerCase task))
                     subtasks)
                commonSubtasks) as H.
  pose proof (generic_title_excludes_one _ Hg) as H1.
  cbv beta in H.
  match goal with
  | |- (_ <= S (List.length (filter ?f commonSubtasks)))%nat =>
      match type of H with
      | (_ <= List.length (filter ?g commonSubtasks) + _)%nat =>
          rewrite (filter_ext f g)
      end
  end.
  - lia.
  - intros task. rewrite existsb_app. cbn [existsb]. now rewrite orb_false_r.
Qed.

Section Generator.
Variable random : nat -> float.

(** The shape of a result for a complexity with a numeric target. *)
Lemma breakdown_shape title description complexity n :
  subtaskCountFor complexity = Some n ->
  let injected := contextualSubtasks title description in
  let generated := fillRemaining random (n - List.length injected) injected 0 in
  let r := generateTaskBreakdown random title description complexity in
  subtasks r = firstn n generated /\ totalEstimatedHours r = sumHours generated.
Proof.
  intros Hn injected generated r.
  unfold r, generateTaskBreakdown, generated, injected, contextualSubtasks.
  rewrite Hn. cbn [subtasks totalEstimatedHours].
  destruct (includes _ "api" || includes _ "backend"),
    (includes _ "ui" || includes _ "frontend"),
    (includes _ "database" || includes _ "data"); split; reflexivity.
Qed.

(** The loop stops for one of its two reasons: every slot is filled, or
    no generic subtask remains. *)
Lemma fillRemaining_stops (slots : nat) (subtasks : list Subtask) (calls : nat) :
  let filled := fillRemaining random slots subtasks calls in
  List.length filled = (List.length subtasks + slots)%nat \/
  remainingFor filled = [].
Proof.
  revert subtasks calls; induction slots as [|slots IH]; intros subtasks calls filled;
    subst filled; cbn [fillRemaining].
  - left. lia.
  - destruct (remainingFor subtasks) eqn:E; [right; exact E|].
    match goal with |- context [fillRemaining random slots ?l ?c] =>
      destruct (IH l c) as [H|H]; [left | right; exact H];
      rewrite H, length_app; cbn [List.length]; lia
    end.
Qed.

(** X14.  A result never holds more subtasks than the target count of its
    complexity, and it holds fewer only when the generic pool is
    exhausted: every generic subtask is then named by a returned
    subtask. *)
Theorem subtask_count_bounds title description complexity n :
  subtaskCountFor complexity = Some n ->
  let r := generateTaskBreakdown random title description complexity in
  (List.length (subtasks r) <= n)%nat /\
  ((List.length (subtasks r) < n)%nat -> remainingFor (subtasks r) = []).
Proof.
  intros Hn r.
  destruct (breakdown_shape title description complexity n Hn) as [Hs _].
  fold r in Hs. cbv zeta in Hs. rewrite Hs.
  set (injected := contextualSubtasks title description).
  set (generated := fillRemaining random (n - List.length injected) injected 0).
  split; [apply firstn_le_length|].
  rewrite length_firstn. intros Hlt.
  assert (Hshort : (List.length generated < n)%nat) by lia.
  rewrite firstn_all2 by lia.
  destruct (fillRemaining_stops (n - List.length injected) injected 0) as [H|H];
    [|exact H].
  fold generated in H.
  pose proof (BreakdownFacts.fillRemaining_length random
                (n - List.length injected) injected 0) as Hb.
  fold generated in Hb. lia.
Qed.

(** The loop fills every slot as long as the list has at most seven
    entries, all with generic titles. *)
Lemma fillRemaining_generic (slots : nat) (subtasks : list Subtask) (calls : nat) :
  Forall generic_title (map title subtasks) ->
  (7 <= List.length (remainingFor subtasks) + List.length subtasks)%nat ->
  (List.length subtasks + slots <= 7)%nat ->
  let filled := fillRemaining random slots subtasks calls in
  List.length filled = (List.length subtasks + slots)%nat /\
  Forall generic_title (map title filled).
Proof.
  revert subtasks calls; induction slots as [|slots IH];
    intros subtasks calls Hg Hrem Hfit filled; subst filled; cbn [fillRemaining].
  - split; [lia | exact Hg].
  - destruct (remainingFor subtasks) as [|t0 rest] eqn:E;
      [cbn [List.length] in Hrem; lia|].
    rewrite <- E in Hrem |- *.
    match goal with |- context [fillRemaining random slots (subtasks ++ [?s]) ?c] =>
      set (pushed := s); assert (Hs : generic_title (title pushed))
    end.
    { cbn [title pushed]. unfold or_else, at_index.
      destruct (index_of _) as [i|]; [|now right].
      destruct (nth_error (remainingFor subtasks) i) as [t|] eqn:Ei; [|now right].
      cbn [truthy to_string]. destruct (negb _); [|now right].
      left. apply nth_error_In in Ei. now apply remainingFor_generic in Ei. }
    destruct (IH (subtasks ++ [pushed]) (calls + 3)%nat) as [Hl Hf].
    + rewrite map_app. apply Forall_app. split; [exact Hg|].
      cbn [map]. constructor; [exact Hs | constructor].
    + pose proof (remainingFor_push subtasks pushed Hs).
      rewrite length_app. cbn [List.length]. lia.
    + rewrite length_app. cbn [List.length]. lia.
    + split; [|exact Hf]. rewrite Hl, length_app. cbn [List.length]. lia.
Qed.

Lemma context_free_injects_nothing title description :
  context_free (toLowerCase (title ++ " " ++ to_string description)) ->
  contextualSubtasks title description = [].
Proof.
  intros H. unfold contextualSubtasks.
  assert (Hk : forall k, In k contextKeywords ->
                 includes (toLowerCase (title ++ " " ++ to_string description)) k = false).
  { intros k Hin. destruct (includes _ k) eqn:E; [|reflexivity].
    apply JSFacts.includes_Substring in E. elim (H k Hin E). }
  rewrite !Hk by (cbn; tauto). reflexivity.
Qed.

(** X15.  A task whose text has none of the six trigger words gets
    exactly the target number of subtasks, for every target up to seven
    (low, medium, high and the default), each with a title of the generic
    pool or the fallback "General task"; this holds whatever the random
    source returns. *)
Theorem context_free_task_gets_target_count title description complexity n :
  context_free (toLowerCase (title ++ " " ++ to_string description)) ->
  subtaskCountFor complexity = Some n ->
  (n <= 7)%nat ->
  let r := generateTaskBreakdown random title description complexity in
  List.length (subtasks r) = n /\
  Forall generic_title (map Breakdown.title (subtasks r)) /\
  totalEstimatedHours r = sumHours (subtasks r).
Proof.
  intros Hfree Hn Hle r.
  destruct (breakdown_shape title description complexity n Hn) as [Hs Ht].
  fold r in Hs, Ht. cbv zeta in Hs, Ht.
  rewrite (context_free_injects_nothing _ _ Hfree) in Hs, Ht. cbn [List.length] in Hs, Ht.
  rewrite Nat.sub_0_r in Hs, Ht.
  destruct (fillRemaining_generic n [] 0) as [Hl Hg]; [constructor | cbn; lia | cbn; lia |].
  cbv zeta in Hl, Hg. cbn [List.length Nat.add] in Hl.
  rewrite firstn_all2 in Hs by lia.
  rewrite Hs, Ht. repeat split; assumption.
Qed.

(** X16.  Whenever the injected subtasks fit the target count, the total
    is the sum of the hours of the subtasks returned. *)
Theorem total_matches_when_injections_fit title description complexity n :
  subtaskCountFor complexity = Some n ->
  (List.length (contextualSubtasks title description) <= n)%nat ->
  let r := generateTaskBreakdown random title description complexity in
  totalEstimatedHours r = sumHours (subtasks r).
Proof.
  intros Hn Hfit r.
  destruct (breakdown_shape title description complexity n Hn) as [Hs Ht].
  fold r in Hs, Ht. cbv zeta in Hs, Ht. rewrite Hs, Ht.
  pose proof (BreakdownFacts.fillRemaining_length random
                (n - List.length (contextualSubtasks title description))
                (contextualSubtasks title description) 0) as Hb.
  now rewrite firstn_all2 by lia.
Qed.

(** X17.  A complexity that names a property every object inherits
    ("constructor", "toString", ...) yields no subtask at all, while the
    total still counts the injected ones. *)
Theorem inherited_complexity_returns_nothing title description complexity :
  inherited_key complexity = true ->
  let r := generateTaskBreakdown random title description complexity in
  subtasks r = [] /\
  totalEstimatedHours r = sumHours (contextualSubtasks title description).
Proof.
  intros H r.
  assert (Hc : subtaskCountFor complexity = None).
  { apply TimeEstimateCases.inherited_key_cases in H. cbn in H.
    repeat (destruct H as [<-|H]; [reflexivity|]). contradiction. }
  unfold r, generateTaskBreakdown, contextualSubtasks. rewrite Hc.
  cbn [subtasks totalEstimatedHours].
  destruct (includes _ "api" || includes _ "backend"),
    (includes _ "ui" || includes _ "frontend"),
    (includes _ "database" || includes _ "data"); split; reflexivity.
Qed.

End Generator.

Lemma subtask_count_bounds_witness :
  let r := generateTaskBreakdown (fun _ => 0.5%float) "Write report" None
             "very_high" in
  (List.length (subtasks r) <= 9)%nat /\
  ((List.length (subtasks r) < 9)%nat -> remainingFor (subtasks r) = []).
Proof.
  apply (subtask_count_bounds (fun _ => 0.5%float) "Write report" None "very_high" 9).
  reflexivity.
Defined.

Lemma context_free_task_gets_target_count_witness :
  let r := generateTaskBreakdown (fun _ => 0.5%float) "Write report" None "medium" in
  List.length (subtasks r) = 5%nat /\
  Forall generic_title (map title (subtasks r)) /\
  totalEstimatedHours r = sumHours (subtasks r).
Proof.
  apply (context_free_task_gets_target_count (fun _ => 0.5%float) "Write report" None
           "medium" 5).
  - intros k Hin Hsub. apply JSFacts.includes_Substring in Hsub.
    cbn in Hin. repeat (destruct Hin as [<-|Hin]; [vm_compute in Hsub; discriminate|]).
    contradiction.
  - reflexivity.
  - lia.
Defined.

Lemma total_matches_when_injections_fit_witness :
  let r := generateTaskBreakdown (fun _ => 0.5%float) "Design the API" None "medium" in
  totalEstimatedHours r = sumHours (subtasks r).
Proof.
  apply (total_matches_when_injections_fit (fun _ => 0.5%float) "Design the API" None
           "medium" 5).
  - reflexivity.
  - vm_compute. lia.
Defined.

Lemma inherited_complexity_returns_nothing_witness :
  let r := generateTaskBreakdown (fun _ => 0.5%float) "Build the API" None "toString" in
  subtasks r = [] /\
  totalEstimatedHours r = sumHours (contextualSubtasks "Build the API" None).
Proof.
  apply (inherited_complexity_returns_nothing (fun _ => 0.5%float) "Build the API" None
           "toString").
  reflexivity.
Defined.

End BreakdownCases.

(* ================================================================== *)
(** * Further properties of the handlers *)
(* ================================================================== *)

Module HandlerCases.
Import JS Handlers HandlerTerms.

Section WithEnv.
Variable env : Env.

(** X18.  A request without title (omitted or empty) is rejected with
    status 400 before anything else happens: no database call is made,
    nothing is stored and nothing is sent. *)
Theorem missing_title_is_rejected_first (g : Generator) (req : Request) (w : World) :
  truthy (title (body req)) = false ->
  exists message, invoke env g req w = (Throw (AppError message 400), w).
Proof.
  intros H. destruct g; cbn [invoke];
    unfold estimateTime, suggestPriority, suggestAssignee, breakdownTask, try_rethrow;
    rewrite H; cbn [negb orb]; unfold throw; eexists; reflexivity.
Qed.

(** X19.  A caller who names a project without being a member of it is
    refused with status 403 after the single membership query: nothing is
    computed, stored or sent. *)
Theorem non_member_is_refused (g : Generator) (req : Request) (w : World) :
  g <> TimeEstimator ->
  truthy (title (body req)) = true ->
  truthy (projectId (body req)) = true ->
  db_rejects env (List.length (db_trace w)) = None ->
  is_member env (to_string (projectId (body req))) (user req) = false ->
  invoke env g req w =
  (Throw (AppError "Access denied to this project" 403), record_event Queried w).
Proof.
  intros Hg Ht Hp Hdb Hm. destruct g; [contradiction| | |]; cbn [invoke];
    unfold suggestPriority, suggestAssignee, breakdownTask, try_rethrow;
    rewrite Ht, Hp; cbn [negb orb]; unfold bind, db_query;
    rewrite Hdb, Hm; reflexivity.
Qed.

Section Answering.
Hypothesis answers : forall n, db_rejects env n = None.













End Answering.
End WithEnv.

Lemma missing_title_is_rejected_first_witness :
  exists message,
    invoke (example_env always_answers) PriorityScorer untitled_request fresh =
    (Throw (AppError message 400), fresh).
Proof.
  apply (missing_title_is_rejected_first (example_env always_answers) PriorityScorer
           untitled_request fresh).
  reflexivity.
Defined.

Lemma non_member_is_refused_witness :
  invoke strangers_env TaskDecomposer project_request fresh =
  (Throw (AppError "Access denied to this project" 403), record_event Queried fresh).
Proof.
  apply (non_member_is_refused strangers_env TaskDecomposer project_request fresh);
    (discriminate || reflexivity).
Defined.


(** What the reading leaves out: a body with [skillsRequired: null] is
    read by the three handlers that ignore the property, and not by the
    assignee ranker. *)
Example null_skills_are_not_read :
  RawRequests.read AssigneeRanker RawRequests.raw_null_skills_body = None /\
  RawRequests.read PriorityScorer RawRequests.raw_null_skills_body <> None.
Proof. split; [reflexivity | discriminate]. Qed.

End HandlerCases.

(* ================================================================== *)
(** * Properties of the exploratory task suggestions *)
(* ================================================================== *)

Module TaskSuggestionFacts.
Import JS TaskSuggestions.

Section Generator.
Variable shuffled : list CommonTask.
Variable random : nat -> float.

Lemma contextSuggestions_at_most_two (context : string) :
  (List.length (contextSuggestions context) <= 2)%nat.
Proof.
  unfold contextSuggestions.
  destruct (includes _ "bug" || includes _ "fix"),
    (includes _ "feature" || includes _ "new"); cbn; lia.
Qed.

Lemma drawLoop_length (bound : float) (i : nat) (rest : list CommonTask) (calls : nat) :
  (List.length (drawLoop random bound i rest calls) <= List.length rest)%nat.
Proof.
  revert i calls; induction rest as [|task rest IH]; intros i calls; cbn [drawLoop].
  - cbn. lia.
  - destruct (_ <? bound)%float; cbn [List.length]; [|lia].
    specialize (IH (S i) (calls + 2)%nat). lia.
Qed.

Lemma drawLoop_drawn (bound : float) (i : nat) (rest : list CommonTask) (calls : nat) :
  Forall (fun s => exists task, In task rest /\ drawn_from task s)
    (drawLoop random bound i rest calls).
Proof.
  revert i calls; induction rest as [|task rest IH]; intros i calls; cbn [drawLoop].
  - constructor.
  - destruct (_ <? bound)%float; constructor.
    + exists task. split; [now left | repeat split].
    + apply (Forall_impl _ (P := fun s => exists t, In t rest /\ drawn_from t s));
        [|apply IH].
      intros s (t & Hin & Hd). exists t. split; [now right | exact Hd].
Qed.

Lemma Forall_firstn {A : Type} (P : A -> Prop) (n : nat) (l : list A) :
  Forall P l -> Forall P (firstn n l).
Proof.
  intros H. apply Forall_forall. intros x Hx.
  rewrite Forall_forall in H. apply H. now apply AssigneeFacts.In_firstn in Hx.
Qed.

(** X21.  Whatever the limit, the result holds the suggestions for the
    context (at most two) first and then suggestions drawn from the
    shuffled common tasks, no more of them than there are common tasks:
    never more than two plus the number of common tasks.  The limit is no cap of ten: with both
    context suggestions and a limit of 100 the ten common tasks give
    twelve suggestions. *)
Theorem suggestions_come_from_context_and_common_tasks
    (context : string) (limit : float) :
  let r := generateTaskSuggestions shuffled random context limit in
  (exists drawn count,
     r = firstn count (contextSuggestions context ++ drawn) /\
     (List.length drawn <= List.length shuffled)%nat /\
     Forall (fun s => exists task, In task shuffled /\ drawn_from task s) drawn) /\
  (List.length r <= 2 + List.length shuffled)%nat /\
  List.length
    (generateTaskSuggestions commonTasks random "fix the new login bug" 100) = 12%nat.
Proof.
  intros r. unfold r, generateTaskSuggestions, slice_to.
  set (bound := Math_min_number _ _).
  split; [|split].
  - exists (drawLoop random bound 0 shuffled 0). eexists. split; [reflexivity|].
    split; [apply drawLoop_length | apply drawLoop_drawn].
  - rewrite length_firstn, length_app.
    pose proof (contextSuggestions_at_most_two context).
    pose proof (drawLoop_length bound 0 shuffled 0). lia.
  - reflexivity.
Qed.

(** X22.  Limits that ask for nothing.  A limit that is not a number (a
    query parameter [Number] cannot read) and a limit of 0 give no
    suggestion.  A limit of -1 does not: the final [slice] counts a
    negative end from the end of the list, so the suggestions for the
    context are returned without the last of them. *)
Theorem limits_that_ask_for_nothing (context : string) :
  generateTaskSuggestions shuffled random context nan = [] /\
  generateTaskSuggestions shuffled random context 0 = [] /\
  generateTaskSuggestions shuffled random context (-1) =
  removelast (contextSuggestions context).
Proof.
  split; [reflexivity|]. split; [reflexivity|].
  unfold generateTaskSuggestions, contextSuggestions.
  assert (Hstop : forall bound,
             (bound = -1 \/ bound = -2 \/ bound = -3)%float ->
             drawLoop random
               (Math_min_number bound (length_number shuffled)) 0 shuffled 0 = []).
  { intros bound Hb. destruct shuffled as [|task rest]; [reflexivity|].
    cbn [drawLoop].
    assert (Hmin : forall len : float,
               (of_Z (Z.of_nat 0) <? Math_min_number bound len)%float = false).
    { intros len. unfold Math_min_number.
      assert (Hnan : is_nan bound = false) by (destruct Hb as [->|[->| ->]]; reflexivity).
      rewrite Hnan. cbn [orb]. destruct (is_nan len); [reflexivity|].
      destruct (bound <? len)%float eqn:E1.
      - destruct Hb as [->|[->| ->]]; reflexivity.
      - destruct (len <? bound)%float eqn:E2.
        + rewrite FloatAxioms.ltb_spec in E2 |- *.
          destruct Hb as [->|[->| ->]];
            (change (Prim2SF (of_Z (Z.of_nat 0))) with (S754_zero false);
             match type of E2 with
             | SFltb _ (Prim2SF ?b) = true =>
                 let v := eval vm_compute in (Prim2SF b) in
                 change (Prim2SF b) with v in E2
             end;
             destruct (Prim2SF len) as [[|]|[|]| |[|] m e];
             try discriminate; reflexivity).
        + destruct Hb as [->|[->| ->]]; reflexivity. }
    now rewrite Hmin. }
  destruct (includes _ "bug" || includes _ "fix"),
    (includes _ "feature" || includes _ "new"); cbn [app];
    rewrite Hstop by (cbn; tauto); reflexivity.
Qed.

End Generator.

(** X23.  With the ten common tasks, a whole limit from 0 to 10 is met
    exactly: the result has that many suggestions, whatever the context,
    the shuffle and the random source. *)
Theorem whole_limit_is_met_exactly
    (shuffled : list CommonTask) (random : nat -> float) (context : string) (n : nat) :
  List.length shuffled = 10%nat ->
  (n <= 10)%nat ->
  List.length
    (generateTaskSuggestions shuffled random context (of_Z (Z.of_nat n))) = n.
Proof.
  intros Hlen Hn.
  do 10 (destruct shuffled as [|? shuffled]; [discriminate|]).
  destruct shuffled; [|discriminate]. clear Hlen.
  unfold generateTaskSuggestions, contextSuggestions.
  destruct (includes _ "bug" || includes _ "fix"),
    (includes _ "feature" || includes _ "new");
    do 11 (destruct n as [|n]; [vm_compute; reflexivity|]); lia.
Qed.

Lemma whole_limit_is_met_exactly_witness :
  List.length
    (generateTaskSuggestions commonTasks (fun _ => 0.5%float) "login bug"
       (of_Z (Z.of_nat 5))) = 5%nat.
Proof.
  apply (whole_limit_is_met_exactly commonTasks (fun _ => 0.5%float) "login bug" 5).
  - reflexivity.
  - lia.
Defined.

(** ** The handler *)

Section WithEnv.
Variable env : Env.


Lemma all_or_first_rejected {A : Type} (xs : list A) (e : Handlers.Error)
    (rest : list (Handlers.Outcome A)) :
  all_or_first (map Handlers.Ok xs ++ Handlers.Throw e :: rest) = Handlers.Throw e.
Proof. induction xs as [|x xs IH]; cbn; [reflexivity | now rewrite IH]. Qed.

Lemma insert_each_app (rows1 rows2 : list Row) (w : World) :
  insert_each env (rows1 ++ rows2) w =
  let (o1, w1) := insert_each env rows1 w in
  let (o2, w2) := insert_each env rows2 w1 in
  (o1 ++ o2, w2).
Proof.
  revert w; induction rows1 as [|row rows1 IH]; intros w; cbn [insert_each app].
  - now destruct (insert_each env rows2 w).
  - destruct (db_insert env row w) as [o w1]. rewrite IH.
    destruct (insert_each env rows1 w1) as [o1 w2].
    now destruct (insert_each env rows2 w2).
Qed.

Lemma db_insert_answered (row : Row) (w : World) :
  db_rejects env (List.length (db_trace w)) = None ->
  db_insert env row w =
  (Handlers.Ok {| record_id := new_id env (List.length (db_trace w)); record_row := row |},
   store {| record_id := new_id env (List.length (db_trace w)); record_row := row |} w).
Proof. intros H. unfold db_insert. now rewrite H. Qed.

Lemma db_insert_rejected (row : Row) (w : World) (message : string) :
  db_rejects env (List.length (db_trace w)) = Some message ->
  db_insert env row w =
  (Handlers.Throw (Handlers.DbError message), record_event (InsertRejected row message) w).
Proof. intros H. unfold db_insert. now rewrite H. Qed.

(** Inserts the database answers are all stored. *)
Lemma insert_each_answered (rows : list Row) (w : World) :
  (forall n, (List.length (db_trace w) <= n < List.length (db_trace w) + List.length rows)%nat ->
             db_rejects env n = None) ->
  exists records,
    fst (insert_each env rows w) = map Handlers.Ok records /\
    task_suggestions (snd (insert_each env rows w)) = task_suggestions w ++ records /\
    map record_row records = rows /\
    sent (snd (insert_each env rows w)) = sent w /\
    List.length (db_trace (snd (insert_each env rows w))) =
    (List.length (db_trace w) + List.length rows)%nat.
Proof.
  revert w; induction rows as [|row rows IH]; intros w Hdb; cbn [insert_each].
  - exists []. cbn. rewrite app_nil_r. repeat split. lia.
  - rewrite db_insert_answered by (apply Hdb; cbn; lia).
    set (record := {| record_id := _; record_row := row |}).
    destruct (IH (store record w)) as (records & Ho & Ht & Hr & Hs & Hl).
    { intros n Hn. apply Hdb. cbn in *. rewrite length_app in Hn. cbn in Hn. lia. }
    destruct (insert_each env rows (store record w)) as [os w2]. cbn [fst snd] in *.
    exists (record :: records). cbn [map]. rewrite Ho, Ht, Hr, Hs, Hl.
    cbn [store task_suggestions db_trace sent]. rewrite <- app_assoc, length_app.
    repeat split. cbn. lia.
Qed.

(** X24.  Unlike the four generators' single insert, the inserts of the
    task suggestions are not all-or-nothing: when the database rejects
    one of them and answers the others, the handler's [Promise.all]
    throws that rejection, and yet every other row has been stored. *)
Theorem rejected_insert_leaves_the_other_rows_stored
    (rows1 : list Row) (row : Row) (rows2 : list Row) (w : World) (message : string) :
  rejects_only env (List.length (db_trace w))
    (List.length (rows1 ++ row :: rows2))
    (List.length (db_trace w) + List.length rows1) message ->
  let run := insert_all env (rows1 ++ row :: rows2) w in
  fst run = Handlers.Throw (Handlers.DbError message) /\
  sent (snd run) = sent w /\
  exists added,
    task_suggestions (snd run) = task_suggestions w ++ added /\
    map record_row added = rows1 ++ rows2.
Proof.
  intros [Hrej Hans] run. unfold run, insert_all.
  rewrite length_app in Hans. cbn [List.length] in Hans.
  rewrite insert_each_app.
  destruct (insert_each_answered rows1 w) as (r1 & Ho1 & Ht1 & Hr1 & Hs1 & Hl1).
  { intros n Hn. apply Hans; lia. }
  destruct (insert_each env rows1 w) as [o1 w1]. cbn [fst snd] in *.
  cbn [insert_each]. rewrite (db_insert_rejected row w1 message) by now rewrite Hl1.
  set (w1' := record_event _ w1).
  destruct (insert_each_answered rows2 w1') as (r2 & Ho2 & Ht2 & Hr2 & Hs2 & Hl2).
  { intros n Hn. unfold w1' in Hn. cbn [record_event db_trace] in Hn.
    rewrite length_app, Hl1 in Hn. cbn in Hn. apply Hans; lia. }
  destruct (insert_each env rows2 w1') as [o2 w2]. cbn [fst snd] in *.
  rewrite Ho1, Ho2, all_or_first_rejected. repeat split.
  - rewrite Hs2. unfold w1'. cbn [record_event sent]. exact Hs1.
  - exists (r1 ++ r2). rewrite Ht2. unfold w1'. cbn [record_event task_suggestions].
    now rewrite Ht1, map_app, Hr1, Hr2, app_assoc.
Qed.

(** X25.  A caller without a project named and without any project of
    their own is answered with an empty list after one query; nothing is
    generated or stored. *)
Theorem no_project_means_no_suggestion (req : Request) (w : World) :
  truthy (projectId (query req)) = false ->
  db_rejects env (List.length (db_trace w)) = None ->
  user_projects env (user req) = [] ->
  getTaskSuggestions env req w =
  (Handlers.Ok tt,
   {| task_suggestions := task_suggestions w;
      db_trace := db_trace w ++ [Queried];
      sent := Some (NoProjects "No projects available for suggestions") |}).
Proof.
  intros Hp Hdb Hnone.
  unfold getTaskSuggestions, try_rethrow, bind, db_query.
  rewrite Hp, Hdb, Hnone. reflexivity.
Qed.


Section Answering.
Hypothesis answers : forall n, db_rejects env n = None.






End Answering.
End WithEnv.

Lemma rejected_insert_leaves_the_other_rows_stored_witness :
  let row i := row_for (example_env (Handlers.rejects_call 1)) example_request i
                 (drawn (fun _ => 0.5%float)
                    {| common_title := "Security audit";
                       common_description := "Conduct security review";
                       common_priority := "high" |} 0) in
  let run := insert_all (example_env (Handlers.rejects_call 1))
               ([row 0%nat] ++ row 1%nat :: [row 2%nat]) fresh in
  fst run = Handlers.Throw (Handlers.DbError "connection lost") /\
  sent (snd run) = sent fresh /\
  exists added,
    task_suggestions (snd run) = task_suggestions fresh ++ added /\
    map record_row added = [row 0%nat] ++ [row 2%nat].
Proof.
  intros row.
  apply (rejected_insert_leaves_the_other_rows_stored
           (example_env (Handlers.rejects_call 1)) [row 0%nat] (row 1%nat)
           [row 2%nat] fresh "connection lost").
  split; [reflexivity|].
  intros n Hn Hne. cbn in Hn, Hne.
  destruct n as [|[|[|n]]]; try reflexivity; (congruence || lia).
Defined.

Lemma no_project_means_no_suggestion_witness :
  getTaskSuggestions newcomer_env example_request fresh =
  (Handlers.Ok tt,
   {| task_suggestions := task_suggestions fresh;
      db_trace := db_trace fresh ++ [Queried];
      sent := Some (NoProjects "No projects available for suggestions") |}).
Proof.
  apply (no_project_means_no_suggestion newcomer_env example_request fresh);
    reflexivity.
Defined.


(** What the reading leaves out: a repeated [context] parameter. *)
Example repeated_context_is_not_read :
  RawQueries.read RawQueries.raw_repeated_context = None.
Proof. reflexivity. Qed.

(** A run in which the second of three inserts is rejected: the handler
    throws, sends nothing, and two rows are stored all the same. *)
Example run_that_stores_part :
  let run := getTaskSuggestions (example_env (Handlers.rejects_call 4))
               example_request fresh in
  fst run = Handlers.Throw (Handlers.DbError "connection lost") /\
  sent (snd run) = None /\
  map (fun r => title (row_content (record_row r))) (task_suggestions (snd run)) =
  ["Debug and fix reported issues"; "Implement error handling"].
Proof. repeat split. Qed.

End TaskSuggestionFacts.
